(** * examples/mnist_rnn_gan.py: a shallow embedding

    The script builds a recurrent generator and discriminator for MNIST,
    wires them into a [gandlf.Model] and trains it.  Its own logic is the
    mode dispatch of the two builders, the pixel normalisation of
    [get_mnist_data], the assembly of the input dictionary in
    [train_model] and the argument checks of the [__main__] block.

    Conventions of the embedding:
    - a Python [str] is a [string] (a list of bytes); [str.lower] is the
      ASCII lower-casing of a byte string;
    - a numpy array is its shape together with its row-major buffer;
    - a [float32] is a [spec_float] with precision 24 and [emax] 128, and
      the arithmetic on it is the IEEE-754 arithmetic of [SpecFloat];
    - a Python dict with string keys is a [gmap string _];
    - the Keras graph is kept symbolically: layers and the tensors they
      are applied to;
    - the [__main__] block runs in a small trace-and-exception monad: every
      call that leaves the script (dataset load, graph construction,
      compile, fit, import, sample, plot, save, print) is an event. *)

From Stdlib Require Import ZArith QArith Qabs Ascii String List Lia.
From Stdlib Require Import SpecFloat.
From stdpp Require Import gmap strings list fin_maps.

Local Open Scope Z_scope.

(** ** Byte strings and [str.lower] *)

Module Str.

(** [c.lower()] on one byte: 'A'..'Z' (65..90) move to 'a'..'z'. *)
Definition lower_ascii (c : ascii) : ascii :=
  let n := N_of_ascii c in
  if ((65 <=? n) && (n <=? 90))%N then ascii_of_N (n + 32) else c.

(** [s.lower()] *)
Fixpoint lower (s : string) : string :=
  match s with
  | EmptyString => EmptyString
  | String c s' => String (lower_ascii c) (lower s')
  end.

(** [x in l] for a list of strings *)
Definition mem (x : string) (l : list string) : bool :=
  bool_decide (x ∈ l).

(** [suffix_of t s]: the text [s] ends with [t]. *)
Definition suffix_of (t s : string) : Prop := ∃ p, s = p +:+ t.

(** [contains t s]: the text [t] occurs inside [s]. *)
Definition contains (t s : string) : Prop := ∃ p q, s = p +:+ t +:+ q.

End Str.

(** ** float32 *)

Module F32.

Definition prec : Z := 24.
Definition emax : Z := 128.

Definition float32 := spec_float.

(** [np.float32(z)] for an integer [z]: round to nearest even. *)
Definition of_Z (z : Z) : float32 := binary_normalize prec emax z 0 false.

(** The Python float [127.5] seen as a float32: 255 * 2^-1, exact. *)
Definition c127_5 : float32 := binary_normalize prec emax 255 (-1) false.

Definition sub (x y : float32) : float32 := SFsub prec emax x y.
Definition div (x y : float32) : float32 := SFdiv prec emax x y.

Definition one : float32 := of_Z 1.
Definition minus_one : float32 := of_Z (-1).

(** The rational a finite float denotes ([None] for infinities and NaN). *)
Definition to_Q (x : float32) : option Q :=
  match x with
  | S754_zero _ => Some 0%Q
  | S754_finite s m e =>
      let v := (inject_Z (Z.pos m) * Qpower 2 e)%Q in
      Some (if s then Qopp v else v)
  | S754_infinity _ | S754_nan => None
  end.

End F32.

(** ** numpy arrays *)

Module Np.

(** An array: its shape and its elements in row-major order. *)
Record ndarray (A : Type) := mk_ndarray {
  shape : list nat;
  data : list A
}.
Arguments mk_ndarray {A} _ _.
Arguments shape {A} _.
Arguments data {A} _.

(** An array is well formed when the buffer has one element per index. *)
Definition wf {A} (a : ndarray A) : Prop :=
  length (data a) = foldr Nat.mul 1%nat (shape a).

(** Element-wise application, as every ufunc and [np.where] with scalar
    branches does: the shape is kept. *)
Definition map {A B} (f : A → B) (a : ndarray A) : ndarray B :=
  mk_ndarray (shape a) (f <$> data a).

(** [np.expand_dims(a, axis=-1)]: a new last axis of length one; the
    buffer is not touched. *)
Definition expand_dims_last {A} (a : ndarray A) : ndarray A :=
  mk_ndarray (shape a ++ [1%nat]) (data a).

(** Number of rows of [a[:k]] when [a] has [n] rows: a negative stop
    counts from the end, and the result is clipped to the array. *)
Definition slice_stop (k : Z) (n : nat) : nat :=
  if k <? 0 then Z.to_nat (Z.max 0 (Z.of_nat n + k))
  else Z.to_nat (Z.min k (Z.of_nat n)).

Definition row_size (sh : list nat) : nat := foldr Nat.mul 1%nat sh.

(** [a[:k]]: the leading rows along the first axis. *)
Definition head_rows {A} (k : Z) (a : ndarray A) : ndarray A :=
  match shape a with
  | [] => a
  | n :: rest =>
      let r := slice_stop k n in
      mk_ndarray (r :: rest) (take (r * row_size rest) (data a))
  end.

Fixpoint chunks {A} (n size : nat) (l : list A) : list (list A) :=
  match n with
  | O => []
  | S n' => take size l :: chunks n' size (drop size l)
  end.

(** Iterating over an array walks its first axis. *)
Definition rows {A} (a : ndarray A) : list (list A) :=
  match shape a with
  | [] => []
  | n :: rest => chunks n (row_size rest) (data a)
  end.

End Np.

(** ** get_mnist_data *)

(** Array elements after normalisation: [np.where(.., 1, -1)] yields
    integers, the float branch yields float32 values. *)
Inductive scalar :=
  | SInt (z : Z)
  | SFloat32 (f : F32.float32).

#[global] Instance spec_float_eq_dec : EqDecision spec_float.
Proof.
  intros x y. unfold Decision.
  decide equality; try apply Z.eq_dec; try apply Pos.eq_dec;
    apply Bool.bool_dec.
Defined.

#[global] Instance scalar_eq_dec : EqDecision scalar.
Proof.
  intros x y. unfold Decision.
  decide equality; [apply Z.eq_dec | apply spec_float_eq_dec].
Defined.

(** What [mnist.load_data()] returns: pixel arrays hold the uint8
    intensities, label arrays the digits. *)
Record mnist_dataset := {
  mnist_X_train : Np.ndarray Z;
  mnist_y_train : Np.ndarray Z;
  mnist_X_test : Np.ndarray Z;
  mnist_y_test : Np.ndarray Z
}.

(** [np.where(X >= 10, 1, -1)] on one pixel. *)
Definition binarize_pixel (p : Z) : scalar :=
  if 10 <=? p then SInt 1 else SInt (-1).

(** [(X.astype(np.float32) - 127.5) / 127.5] on one pixel. *)
Definition scale_pixel_f32 (p : Z) : F32.float32 :=
  F32.div (F32.sub (F32.of_Z p) F32.c127_5) F32.c127_5.

Definition scale_pixel (p : Z) : scalar := SFloat32 (scale_pixel_f32 p).

(** The four arrays [get_mnist_data] returns,
    [(X_train, y_train), (X_test, y_test)]. *)
Record mnist_data := {
  X_train : Np.ndarray scalar;
  y_train : Np.ndarray Z;
  X_test : Np.ndarray scalar;
  y_test : Np.ndarray Z
}.

Definition get_mnist_data (loaded : mnist_dataset) (binarize : bool)
  : mnist_data :=
  let X_test0 := mnist_X_test loaded in
  let X_train0 := mnist_X_train loaded in
  let '(X_train1, X_test1) :=
    if binarize
    then (Np.map binarize_pixel X_train0, Np.map binarize_pixel X_test0)
    else (Np.map scale_pixel X_train0, Np.map scale_pixel X_test0) in
  {| X_train := Np.expand_dims_last X_train1;
     X_test := Np.expand_dims_last X_test1;
     y_train := Np.expand_dims_last (mnist_y_train loaded);
     y_test := Np.expand_dims_last (mnist_y_test loaded) |}.

(** ** The Keras layer graph, kept symbolically *)

Module Keras.

(** A layer object, and a tensor: either a declared input or the result
    of calling a layer on a tensor.  The two attention wrappers of
    [gandlf.layers] take the wrapped layer and the attended tensor. *)
Inductive layer :=
  | RepeatVector (n : Z)
  | LSTM (output_dim : Z) (return_sequences : bool)
  | Dense (output_dim : Z) (activation : string)
  | TimeDistributed (inner : layer)
  | Reshape (target_shape : list Z) (name : option string)
  | Embedding (input_dim output_dim : Z) (init : string)
  | Flatten
  | RecurrentAttention1D (wrapped : layer) (attention : tensor)
  | RecurrentAttention2D (wrapped : layer) (attention : tensor)
with tensor :=
  | Input (shape : list Z) (dtype : option string) (name : string)
  | Call (l : layer) (x : tensor).

(** [keras.models.Model(input=..., output=...)] *)
Record Model := mk_Model {
  input : list tensor;
  output : tensor
}.

(** The name under which a tensor of the input list is fed: that of its
    [Input] declaration. *)
Definition input_name (t : tensor) : option string :=
  match t with
  | Input _ _ name => Some name
  | Call _ _ => None
  end.

(** The names a model declares, in declaration order. *)
Definition input_names (m : Model) : list string :=
  omap input_name (input m).

(** The same as a set. *)
Definition input_set (m : Model) : gset string :=
  list_to_set (input_names m).

(** The [Input] declarations a tensor is computed from. *)
Fixpoint layer_inputs (l : layer) : list string :=
  match l with
  | TimeDistributed inner => layer_inputs inner
  | RecurrentAttention1D wrapped attention =>
      layer_inputs wrapped ++ tensor_inputs attention
  | RecurrentAttention2D wrapped attention =>
      layer_inputs wrapped ++ tensor_inputs attention
  | _ => []
  end
with tensor_inputs (t : tensor) : list string :=
  match t with
  | Input _ _ name => [name]
  | Call l x => layer_inputs l ++ tensor_inputs x
  end.

End Keras.

(** ** Exceptions, events and the monad of the script *)

Inductive exn :=
  | ValueError (msg : string)
  | ImportError (msg : string).

(** What is fed under one key of the [inputs] dictionary of [fit]. *)
Inductive source :=
  | SrcLatent (latent_type : string)
  | SrcImages (a : Np.ndarray scalar)
  | SrcLabels (a : Np.ndarray Z).

(** [keras.optimizers.Adam(lr=..., beta_1=...)] *)
Record Adam := mk_Adam {
  adam_lr : spec_float;
  adam_beta_1 : spec_float
}.

(** [gandlf.Model(generator, discriminator)] *)
Record GandlfModel := mk_GandlfModel {
  gm_generator : Keras.Model;
  gm_discriminator : Keras.Model
}.

(** One element of the list passed to [model.sample]. *)
Inductive sample_arg :=
  | SampleLatent (latent_type : string)
  | SampleLabels (a : Np.ndarray Z).

(** Every call that leaves the script. *)
Inductive event :=
  | EvSeed (seed : Z)
  | EvSetImageDimOrdering (ordering : string)
  | EvLoadData
  | EvKerasModel (m : Keras.Model)
  | EvGandlfModel (m : GandlfModel)
  | EvCompile (optimizer : Adam) (loss : string)
  | EvFit (inputs : gmap string source) (outputs : gmap string string)
          (nb_epoch batch_size : Z)
  | EvImportPyplot
  | EvSample (args : list sample_arg) (num_samples : option Z)
  | EvPlotSample (sample : Np.ndarray scalar)
  | EvPrintDigit (digit : list Z)
  | EvShow
  | EvSave (path : string)
  | EvPrintSaved (path : string).

(** A computation: the events it performed, then an exception or a
    value. *)
Definition M (A : Type) : Type := (list event * (exn + A))%type.

Definition ret {A} (a : A) : M A := ([], inr a).
Definition raise {A} (e : exn) : M A := ([], inl e).
Definition tell (ev : event) : M unit := ([ev], inr tt).

Definition bind {A B} (m : M A) (k : A → M B) : M B :=
  match m with
  | (tr, inl e) => (tr, inl e)
  | (tr, inr a) => let '(tr', r) := k a in (tr ++ tr', r)
  end.

#[global] Instance M_ret : MRet M := @ret.
#[global] Instance M_bind : MBind M := λ A B k m, bind m k.

(** [for x in xs: body x] *)
Fixpoint for_each {A} (xs : list A) (body : A → M unit) : M unit :=
  match xs with
  | [] => ret tt
  | x :: xs' => body x ;; for_each xs' body
  end.

Definition trace {A} (m : M A) : list event := fst m.
Definition outcome {A} (m : M A) : exn + A := snd m.

(** The events by which a network graph or the training comes to be. *)
Definition is_construction (ev : event) : bool :=
  match ev with
  | EvKerasModel _ | EvGandlfModel _ | EvCompile _ _ => true
  | _ => false
  end.

Definition is_training (ev : event) : bool :=
  match ev with
  | EvFit _ _ _ _ => true
  | _ => false
  end.

(** ** build_generator and build_discriminator *)

Import Keras.

Definition build_generator (latent_size : Z) (mode : string) : M Model :=
  let latent := Input [latent_size] None "latent" in
  let rnn_input := Call (RepeatVector 28) latent in
  let rnn_1 := LSTM 128 true in
  let output := Dense 28 "tanh" in
  let output := TimeDistributed output in
  let expand := Reshape [28; 28; 1] (Some "gen_image") in
  let '(rnn_1, inputs) :=
    if String.eqb mode "1d" then
      let input_class := Input [1] (Some "int32") "image_class_gen" in
      let embed := Embedding 10 64 "glorot_normal" in
      let embedded := Call Flatten (Call embed input_class) in
      (RecurrentAttention1D rnn_1 embedded, [latent; input_class])
    else if String.eqb mode "2d" then
      let ref_image := Input [28; 28; 1] None "ref_image_gen" in
      let flat := Call (Reshape [28; 28] None) ref_image in
      (RecurrentAttention2D rnn_1 flat, [latent; ref_image])
    else
      (rnn_1, [latent]) in
  let gen_image := Call expand (Call output (Call rnn_1 rnn_input)) in
  let model := mk_Model inputs gen_image in
  tell (EvKerasModel model) ;;
  ret model.

Definition build_discriminator (mode : string) : M Model :=
  let image := Input [28; 28; 1] None "real_data" in
  let rnn_input := Call (Reshape [28; 28] None) image in
  let rnn_1 := LSTM 128 false in
  let class_pred := Dense 1 "sigmoid" in
  let '(rnn_1, inputs) :=
    if String.eqb mode "1d" then
      let input_class := Input [1] (Some "int32") "image_class_dis" in
      let embed := Embedding 10 64 "glorot_normal" in
      let embedded := Call Flatten (Call embed input_class) in
      (RecurrentAttention1D rnn_1 embedded, [image; input_class])
    else if String.eqb mode "2d" then
      let ref_image := Input [28; 28; 1] None "ref_image_dis" in
      let attn_reshaped := Call (Reshape [28; 28] None) ref_image in
      (RecurrentAttention2D rnn_1 attn_reshaped, [image; ref_image])
    else
      (rnn_1, [image]) in
  let pred_fake := Call class_pred (Call rnn_1 rnn_input) in
  let model := mk_Model inputs pred_fake in
  tell (EvKerasModel model) ;;
  ret model.

(** ** Command line arguments and the environment *)

(** The namespace [parser.parse_args()] returns. *)
Record Args := {
  nb_epoch : Z;
  nb_batch : Z;
  plot : Z;
  binarize : bool;
  nb_latent : Z;
  save_path : string;
  gen_mode : string;
  dis_mode : string;
  latent_type : string;
  lr : spec_float;
  beta : spec_float
}.

(** Python floats are binary64; [float64_of_ratio a b] is the literal
    nearest to [a / b]. *)
Definition float64_of_ratio (a b : Z) : spec_float :=
  SFdiv 53 1024 (binary_normalize 53 1024 a 0 false)
                (binary_normalize 53 1024 b 0 false).

(** The defaults declared with [add_argument]. *)
Definition default_args : Args := {|
  nb_epoch := 10;
  nb_batch := 32;
  plot := 0;
  binarize := false;
  nb_latent := 100;
  save_path := "/tmp/mnist_rnn_gan.keras_model";
  gen_mode := "none";
  dis_mode := "none";
  latent_type := "uniform";
  lr := float64_of_ratio 1 1000;
  beta := float64_of_ratio 1 2
|}.

(** What the script finds around it: whether [matplotlib.pyplot] can be
    imported, what [mnist.load_data()] returns and what [model.sample]
    returns (the samples along its first axis). *)
Record Env := {
  matplotlib_available : bool;
  mnist_load_data : mnist_dataset;
  gandlf_sample : list sample_arg → option Z → list (Np.ndarray scalar)
}.

(** ** train_model *)

(** The [inputs] dictionary handed to [model.fit]. *)
Definition train_inputs (args : Args)
    (X_train : Np.ndarray scalar) (y_train : Np.ndarray Z)
  : gmap string source :=
  let gen_mode := Str.lower (gen_mode args) in
  let dis_mode := Str.lower (dis_mode args) in
  let inputs : gmap string source :=
    <["real_data" := SrcImages X_train]>
      {["latent" := SrcLatent (Str.lower (latent_type args))]} in
  let inputs :=
    if String.eqb gen_mode "1d" then
      <["image_class_gen" := SrcLabels y_train]> inputs
    else if String.eqb gen_mode "2d" then
      <["ref_image_gen" := SrcImages X_train]> inputs
    else inputs in
  let inputs :=
    if String.eqb dis_mode "1d" then
      <["image_class_dis" := SrcLabels y_train]> inputs
    else if String.eqb dis_mode "2d" then
      <["ref_image_dis" := SrcImages X_train]> inputs
    else inputs in
  inputs.

(** The [outputs] dictionary. *)
Definition train_outputs : gmap string string :=
  <["fake" := "0"]> {["gen_real" := "1"]}.

Definition train_model (args : Args)
    (X_train : Np.ndarray scalar) (y_train : Np.ndarray Z)
  : M GandlfModel :=
  let adam_optimizer := mk_Adam (lr args) (beta args) in
  let gen_mode := Str.lower (gen_mode args) in
  let dis_mode := Str.lower (dis_mode args) in
  generator ← build_generator (nb_latent args) gen_mode;
  discriminator ← build_discriminator dis_mode;
  let model := mk_GandlfModel generator discriminator in
  tell (EvGandlfModel model) ;;
  tell (EvCompile adam_optimizer "binary_crossentropy") ;;
  let inputs := train_inputs args X_train y_train in
  let outputs := train_outputs in
  tell (EvFit inputs outputs (nb_epoch args) (nb_batch args)) ;;
  ret model.

(** ** The module level and the [__main__] block *)

(** The two statements the module runs when it is loaded. *)
Definition module_init : M unit :=
  tell (EvSeed 1337) ;;
  tell (EvSetImageDimOrdering "tf").

Definition dq : string := String (ascii_of_N 34) EmptyString.
Definition quoted (s : string) : string := dq +:+ s +:+ dq.

Definition mode_message (flag : string) : string :=
  quoted flag +:+ " should be " +:+ quoted "none" +:+
  " (no attention), " +:+ quoted "1d" +:+
  " (pay attention to labels), or " +:+ quoted "2d" +:+
  " (pay attention to image). Got: ".

Definition latent_message_head : string :=
  "Latent vector must be either " +:+ quoted "normal" +:+ " or " +:+
  quoted "uniform" +:+ ", got ".

Definition matplotlib_message : string :=
  "To plot samples from the generator, you must install Matplotlib " +:+
  "(not found in path).".

Definition valid_modes : list string := ["none"; "1d"; "2d"].
Definition valid_latent_types : list string := ["normal"; "uniform"].

(** [if cond: body] *)
Definition when (cond : bool) (body : M unit) : M unit :=
  if cond then body else ret tt.

(** Python truth of an [int]. *)
Definition truthy (z : Z) : bool := negb (z =? 0).

Definition plot_samples (env : Env) (args : Args) (y_train : Np.ndarray Z)
  : M unit :=
  let gen_mode := Str.lower (gen_mode args) in
  (if String.eqb gen_mode "none" then
     let sample_args := [SampleLatent (latent_type args)] in
     tell (EvSample sample_args (Some (plot args))) ;;
     let samples := gandlf_sample env sample_args (Some (plot args)) in
     for_each samples (λ sample, tell (EvPlotSample sample))
   else
     let labels := Np.head_rows (plot args) y_train in
     let sample_args := [SampleLatent (latent_type args);
                         SampleLabels labels] in
     tell (EvSample sample_args None) ;;
     let samples := gandlf_sample env sample_args None in
     for_each (zip samples (Np.rows labels))
       (λ '(sample, digit),
          tell (EvPlotSample sample) ;; tell (EvPrintDigit digit))) ;;
  tell EvShow.

Definition main (env : Env) (args : Args) : M unit :=
  when (negb (Str.mem (Str.lower (gen_mode args)) valid_modes))
    (raise (ValueError (mode_message "gen_mode" +:+ gen_mode args))) ;;
  when (negb (Str.mem (Str.lower (dis_mode args)) valid_modes))
    (raise (ValueError (mode_message "dis_mode" +:+ dis_mode args))) ;;
  when (negb (Str.mem (Str.lower (latent_type args)) valid_latent_types))
    (raise (ValueError (latent_message_head +:+
                        Str.lower (latent_type args) +:+ "."))) ;;
  when (truthy (plot args))
    (if matplotlib_available env then tell EvImportPyplot
     else raise (ImportError matplotlib_message)) ;;
  tell EvLoadData ;;
  let d := get_mnist_data (mnist_load_data env) (binarize args) in
  model ← train_model args (X_train d) (y_train d);
  when (truthy (plot args)) (plot_samples env args (y_train d)) ;;
  tell (EvSave (save_path args)) ;;
  tell (EvPrintSaved (save_path args)).

(** A run of the script: the module level, then the [__main__] block on
    the parsed arguments. *)
Definition script (env : Env) (args : Args) : M unit :=
  module_init ;; main env args.

(** The trace the module level leaves behind. *)
Definition startup_trace : list event :=
  [EvSeed 1337; EvSetImageDimOrdering "tf"].

(** The dataset is read by [mnist.load_data()] only. *)
Definition is_load (ev : event) : bool :=
  match ev with
  | EvLoadData => true
  | _ => false
  end.

(** The two splits of the dataset, to speak of both image arrays at
    once. *)
Inductive split := Train | Test.

Definition loaded_X (s : split) (loaded : mnist_dataset) : Np.ndarray Z :=
  match s with
  | Train => mnist_X_train loaded
  | Test => mnist_X_test loaded
  end.

Definition returned_X (s : split) (d : mnist_data) : Np.ndarray scalar :=
  match s with
  | Train => X_train d
  | Test => X_test d
  end.

(** The rational affine map the float branch approximates:
    [(p - 127.5) / 127.5]. *)
Definition affine (p : Z) : Q := ((inject_Z p - (255 # 2)) / (255 # 2))%Q.

(** Half a unit in the last place of a float32 in [[0.5, 1]]. *)
Definition half_ulp : Q := (1 # 33554432)%Q.

(** The checks of one scaled pixel, as a boolean: the result is a finite
    float in [[-1, 1]], within [half_ulp] of [affine p], and it is the
    float -1.0 at 0 and the float 1.0 at 255. *)
Definition scale_pixel_ok (p : Z) : bool :=
  match F32.to_Q (scale_pixel_f32 p) with
  | Some q =>
      Qle_bool (-1) q && Qle_bool q 1 &&
      Qle_bool (Qabs (q - affine p)) half_ulp &&
      (if p =? 0
       then bool_decide (scale_pixel_f32 p = F32.minus_one) else true) &&
      (if p =? 255
       then bool_decide (scale_pixel_f32 p = F32.one) else true)
  | None => false
  end.

(** The set of inputs declared by the model a builder run ends with
    ([None] had the run raised). *)
Definition declared (run : M Model) : option (gset string) :=
  match outcome run with
  | inr m => Some (input_set m)
  | inl _ => None
  end.

(** The [inputs] dictionaries handed to [model.fit] along a trace. *)
Definition fit_inputs (tr : list event) : list (gmap string source) :=
  omap (λ ev, match ev with
              | EvFit inputs _ _ _ => Some inputs
              | _ => None
              end) tr.

(** The keys of the dictionary, read off the four tests of
    [train_model] on the two lower-cased modes. *)
Definition keys_of_flags (g1 g2 d1 d2 : bool) : gset string :=
  {["latent"; "real_data"]} ∪
  (if g1 then {["image_class_gen"]}
   else if g2 then {["ref_image_gen"]} else ∅) ∪
  (if d1 then {["image_class_dis"]}
   else if d2 then {["ref_image_dis"]} else ∅).

Definition bundle_keys (gen dis : string) : gset string :=
  keys_of_flags (String.eqb gen "1d") (String.eqb gen "2d")
                (String.eqb dis "1d") (String.eqb dis "2d").

Definition all_keys : gset string :=
  {["latent"; "real_data"; "image_class_gen"; "ref_image_gen";
    "image_class_dis"; "ref_image_dis"]}.

(** ** Concrete inputs used to run the definitions *)

Definition tiny_mnist : mnist_dataset := {|
  mnist_X_train := Np.mk_ndarray [2; 1; 2]%nat [0; 9; 10; 255];
  mnist_y_train := Np.mk_ndarray [2]%nat [5; 7];
  mnist_X_test := Np.mk_ndarray [1; 1; 2]%nat [3; 200];
  mnist_y_test := Np.mk_ndarray [1]%nat [1]
|}.

Definition blank_sample : Np.ndarray scalar :=
  Np.mk_ndarray [1; 1; 1]%nat [SInt 0].

Definition env_without_matplotlib : Env := {|
  matplotlib_available := false;
  mnist_load_data := tiny_mnist;
  gandlf_sample := λ _ _, [blank_sample]
|}.

Definition with_modes (gen dis latent : string) (n : Z) : Args := {|
  nb_epoch := nb_epoch default_args;
  nb_batch := nb_batch default_args;
  plot := n;
  binarize := binarize default_args;
  nb_latent := nb_latent default_args;
  save_path := save_path default_args;
  gen_mode := gen;
  dis_mode := dis;
  latent_type := latent;
  lr := lr default_args;
  beta := beta default_args
|}.

Definition args_unknown_gen_mode : Args :=
  with_modes "3d" "none" "uniform" 0.

Definition args_typo_latent_type : Args :=
  with_modes "none" "none" "ormal" 0.

Definition args_plot : Args :=
  with_modes "none" "none" "uniform" 3.

Definition args_plot_unknown_gen_mode : Args :=
  with_modes "3d" "none" "uniform" 3.

(** ** Observations on traces and graphs *)

(** The calls of [model.sample] along a trace. *)
Definition sample_calls (tr : list event)
  : list (list sample_arg * option Z) :=
  omap (λ ev, match ev with
              | EvSample sample_args num_samples =>
                  Some (sample_args, num_samples)
              | _ => None
              end) tr.

(** The digits printed along a trace. *)
Definition printed_digits (tr : list event) : list (list Z) :=
  omap (λ ev, match ev with
              | EvPrintDigit digit => Some digit
              | _ => None
              end) tr.

(** The events of the plotting part of the script. *)
Definition is_plotting (ev : event) : bool :=
  match ev with
  | EvImportPyplot | EvSample _ _ | EvPlotSample _ | EvPrintDigit _
  | EvShow => true
  | _ => false
  end.

Definition is_figure (ev : event) : bool :=
  match ev with
  | EvPlotSample _ => true
  | _ => false
  end.



(** How often a kind of event occurs. *)
Definition count (kind : event → bool) (tr : list event) : nat :=
  length (filter (λ ev, kind ev = true) tr).

(** A graph with the attention wrappers taken off: each wrapper is
    replaced by the layer it wraps. *)
Fixpoint strip_layer (l : layer) : layer :=
  match l with
  | TimeDistributed inner => TimeDistributed (strip_layer inner)
  | RecurrentAttention1D wrapped _ => strip_layer wrapped
  | RecurrentAttention2D wrapped _ => strip_layer wrapped
  | _ => l
  end.

Fixpoint strip_tensor (t : tensor) : tensor :=
  match t with
  | Input _ _ _ => t
  | Call l x => Call (strip_layer l) (strip_tensor x)
  end.

(** The model a builder run ends with. *)
Definition built (run : M Model) : option Model :=
  match outcome run with
  | inr m => Some m
  | inl _ => None
  end.

(** The shape an input of a model is declared with. *)
Definition declared_shape (m : Model) (name : string) : option (list Z) :=
  head (omap (λ t, match t with
                   | Input shape _ n =>
                       if String.eqb n name then Some shape else None
                   | Call _ _ => None
                   end) (input m)).

(** The shape of one sample of a fed array: the shape without its first
    axis.  The latent entry is a tag, not an array. *)
Definition sample_shape (src : source) : option (list Z) :=
  match src with
  | SrcLatent _ => None
  | SrcImages a => Some (Z.of_nat <$> tail (Np.shape a))
  | SrcLabels a => Some (Z.of_nat <$> tail (Np.shape a))
  end.

(** The arguments with both modes replaced. *)
Definition set_modes (gen dis : string) (args : Args) : Args := {|
  nb_epoch := nb_epoch args;
  nb_batch := nb_batch args;
  plot := plot args;
  binarize := binarize args;
  nb_latent := nb_latent args;
  save_path := save_path args;
  gen_mode := gen;
  dis_mode := dis;
  latent_type := latent_type args;
  lr := lr args;
  beta := beta args
|}.

(** The checks of the [__main__] block, as one proposition. *)
Definition checks_pass (env : Env) (args : Args) : Prop :=
  Str.lower (gen_mode args) ∈ valid_modes ∧
  Str.lower (dis_mode args) ∈ valid_modes ∧
  Str.lower (latent_type args) ∈ valid_latent_types ∧
  (plot args = 0 ∨ matplotlib_available env = true).

(** Order and sign of two scaled pixels, as booleans on the rationals
    the floats denote. *)
Definition scaled_lt (p1 p2 : Z) : bool :=
  match F32.to_Q (scale_pixel_f32 p1), F32.to_Q (scale_pixel_f32 p2) with
  | Some q1, Some q2 => negb (Qle_bool q2 q1)
  | _, _ => false
  end.

Definition scaled_mirror_ok (p : Z) : bool :=
  bool_decide (scale_pixel_f32 (255 - p) = SFopp (scale_pixel_f32 p)) &&
  match F32.to_Q (scale_pixel_f32 p) with
  | Some q =>
      negb (Qeq_bool q 0) &&
      implb (Qle_bool q 0) (p <=? 127) &&
      implb (Qle_bool 0 q) (128 <=? p)
  | None => false
  end.

(** The events [plot_samples] performs, written out as a list. *)
Definition plot_events (env : Env) (args : Args) (y_train : Np.ndarray Z)
  : list event :=
  (if String.eqb (Str.lower (gen_mode args)) "none" then
     let sample_args := [SampleLatent (latent_type args)] in
     EvSample sample_args (Some (plot args)) ::
     (gandlf_sample env sample_args (Some (plot args))
        ≫= λ sample, [EvPlotSample sample])
   else
     let labels := Np.head_rows (plot args) y_train in
     let sample_args := [SampleLatent (latent_type args);
                         SampleLabels labels] in
     EvSample sample_args None ::
     (zip (gandlf_sample env sample_args None) (Np.rows labels)
        ≫= λ '(sample, digit), [EvPlotSample sample; EvPrintDigit digit]))
  ++ [EvShow].

(** The events of a [__main__] block that passes its checks. *)
Definition run_events (env : Env) (args : Args) : list event :=
  let d := get_mnist_data (mnist_load_data env) (binarize args) in
  (if truthy (plot args) then [EvImportPyplot] else []) ++
  [EvLoadData] ++
  trace (train_model args (X_train d) (y_train d)) ++
  (if truthy (plot args) then plot_events env args (y_train d) else []) ++
  [EvSave (save_path args); EvPrintSaved (save_path args)].

(** Further concrete inputs. *)
Definition mnist_28 : mnist_dataset := {|
  mnist_X_train := Np.mk_ndarray [2; 28; 28]%nat (replicate 1568 0);
  mnist_y_train := Np.mk_ndarray [2]%nat [5; 7];
  mnist_X_test := Np.mk_ndarray [1; 28; 28]%nat (replicate 784 255);
  mnist_y_test := Np.mk_ndarray [1]%nat [1]
|}.

Definition env_with_matplotlib : Env := {|
  matplotlib_available := true;
  mnist_load_data := tiny_mnist;
  gandlf_sample := λ _ _, [blank_sample; blank_sample; blank_sample]
|}.

(** [env_without_matplotlib] with another test split. *)
Definition env_other_test_split : Env := {|
  matplotlib_available := false;
  mnist_load_data := {|
    mnist_X_train := mnist_X_train tiny_mnist;
    mnist_y_train := mnist_y_train tiny_mnist;
    mnist_X_test := Np.mk_ndarray [1; 1; 1]%nat [77];
    mnist_y_test := Np.mk_ndarray [1]%nat [9]
  |};
  gandlf_sample := λ _ _, [blank_sample]
|}.

Definition args_capitals : Args :=
  with_modes "1D" "NONE" "uniform" 0.

Definition args_plot_2d : Args :=
  with_modes "2d" "none" "Normal" 1.

(** * Properties *)

(** ** The monad *)

Lemma bind_ok {A B} (tr : list event) (a : A) (k : A → M B) :
  (tr, inr a) ≫= k = (tr ++ fst (k a), snd (k a)).
Proof. unfold mbind, M_bind, bind. by destruct (k a). Qed.

Lemma bind_raise {A B} (tr : list event) (e : exn) (k : A → M B) :
  (tr, inl e) ≫= k = (tr, inl e).
Proof. reflexivity. Qed.

Lemma script_main (env : Env) (args : Args) :
  script env args
    = (startup_trace ++ trace (main env args), outcome (main env args)).
Proof.
  unfold script, module_init, tell. rewrite !bind_ok. simpl.
  unfold trace, outcome. by destruct (main env args).
Qed.

(** ** The dataset adapter *)

Section DatasetAdapter.

Variable loaded : mnist_dataset.

Lemma X_train_data (b : bool) :
  Np.data (X_train (get_mnist_data loaded b)) =
  (if b then binarize_pixel else scale_pixel) <$>
    Np.data (mnist_X_train loaded).
Proof. by destruct b. Qed.

Lemma X_test_data (b : bool) :
  Np.data (X_test (get_mnist_data loaded b)) =
  (if b then binarize_pixel else scale_pixel) <$>
    Np.data (mnist_X_test loaded).
Proof. by destruct b. Qed.

Lemma returned_X_data (s : split) (b : bool) :
  Np.data (returned_X s (get_mnist_data loaded b)) =
  (if b then binarize_pixel else scale_pixel) <$>
    Np.data (loaded_X s loaded).
Proof. by destruct s, b. Qed.

Lemma binarize_pixel_cases (p : Z) :
  binarize_pixel p = SInt (-1) ∨ binarize_pixel p = SInt 1.
Proof. unfold binarize_pixel. destruct (10 <=? p); auto. Qed.

Lemma binarize_pixel_one (p : Z) : binarize_pixel p = SInt 1 ↔ 10 ≤ p.
Proof.
  unfold binarize_pixel.
  destruct (Z.leb_spec 10 p); split; intros; try done; lia.
Qed.

Lemma binarize_pixel_minus_one (p : Z) :
  binarize_pixel p = SInt (-1) ↔ p < 10.
Proof.
  unfold binarize_pixel.
  destruct (Z.leb_spec 10 p); split; intros; try done; lia.
Qed.

(** C4. With [binarize=True] every element of the returned image arrays
    (training and test, whatever the loaded pixels are) is the integer
    -1 or the integer 1. *)
Theorem binarized_values_are_plus_minus_one :
  Forall (λ x, x = SInt (-1) ∨ x = SInt 1)
         (Np.data (X_train (get_mnist_data loaded true))) ∧
  Forall (λ x, x = SInt (-1) ∨ x = SInt 1)
         (Np.data (X_test (get_mnist_data loaded true))).
Proof.
  rewrite X_train_data, X_test_data.
  split; apply Forall_fmap, Forall_true; intros p; apply binarize_pixel_cases.
Qed.

(** C9. With [binarize=True] the threshold is 10: the element at a
    position of a returned image array (training or test) is 1 exactly
    when the loaded pixel at that position is at least 10, and -1 exactly
    when it is below 10. *)
Theorem binarize_threshold_is_ten (s : split) (i : nat) (p : Z) :
  Np.data (loaded_X s loaded) !! i = Some p →
  (Np.data (returned_X s (get_mnist_data loaded true)) !! i = Some (SInt 1)
     ↔ 10 ≤ p) ∧
  (Np.data (returned_X s (get_mnist_data loaded true)) !! i = Some (SInt (-1))
     ↔ p < 10).
Proof.
  intros Hp. rewrite returned_X_data, list_lookup_fmap, Hp. simpl.
  rewrite <- binarize_pixel_one, <- binarize_pixel_minus_one.
  split; split; congruence.
Qed.

(** C6. For both settings of [binarize], each returned array has the
    shape of the loaded one with one more, last, axis of length 1, and
    holds as many elements as before. *)
Theorem trailing_axis_of_size_one (b : bool) :
  let d := get_mnist_data loaded b in
  Np.shape (X_train d) = Np.shape (mnist_X_train loaded) ++ [1%nat] ∧
  Np.shape (X_test d) = Np.shape (mnist_X_test loaded) ++ [1%nat] ∧
  Np.shape (y_train d) = Np.shape (mnist_y_train loaded) ++ [1%nat] ∧
  Np.shape (y_test d) = Np.shape (mnist_y_test loaded) ++ [1%nat] ∧
  length (Np.data (X_train d)) = length (Np.data (mnist_X_train loaded)) ∧
  length (Np.data (X_test d)) = length (Np.data (mnist_X_test loaded)) ∧
  Np.data (y_train d) = Np.data (mnist_y_train loaded) ∧
  Np.data (y_test d) = Np.data (mnist_y_test loaded).
Proof.
  intros d; subst d.
  rewrite X_train_data, X_test_data, !length_fmap.
  by destruct b.
Qed.

Lemma scale_pixel_ok_all :
  forallb scale_pixel_ok (Z.of_nat <$> seq 0 256) = true.
Proof. vm_compute. reflexivity. Qed.

Lemma scale_pixel_ok_range (p : Z) : 0 ≤ p ≤ 255 → scale_pixel_ok p = true.
Proof.
  intros Hp.
  pose proof scale_pixel_ok_all as Hall.
  rewrite forallb_forall in Hall. apply Hall.
  apply list_elem_of_In, list_elem_of_fmap.
  exists (Z.to_nat p). split; [lia |].
  apply list_elem_of_In, in_seq. lia.
Qed.

(** C5. With [binarize=False] a loaded pixel [p] in 0..255 becomes, at
    the same position of the returned image array, the float32
    [(p - 127.5) / 127.5]: the one transform for every pixel, computed in
    float32.  Its value lies in [[-1, 1]], is -1 for [p = 0] and 1 for
    [p = 255], and is the rational [(p - 127.5) / 127.5] up to the
    rounding of the float32 division (at most half a unit in the last
    place, 2^-25). *)
Theorem scaled_pixel_affine_in_unit_range (s : split) (i : nat) (p : Z) :
  Np.data (loaded_X s loaded) !! i = Some p →
  0 ≤ p ≤ 255 →
  ∃ (f : F32.float32) (q : Q),
    Np.data (returned_X s (get_mnist_data loaded false)) !! i
      = Some (SFloat32 f) ∧
    f = F32.div (F32.sub (F32.of_Z p) F32.c127_5) F32.c127_5 ∧
    F32.to_Q f = Some q ∧
    (-1 <= q)%Q ∧ (q <= 1)%Q ∧
    (Qabs (q - affine p) <= half_ulp)%Q ∧
    (p = 0 → f = F32.minus_one) ∧
    (p = 255 → f = F32.one).
Proof.
  intros Hp Hrange.
  pose proof (scale_pixel_ok_range p Hrange) as Hok.
  unfold scale_pixel_ok in Hok.
  destruct (F32.to_Q (scale_pixel_f32 p)) as [q|] eqn:Hq; [| done].
  apply andb_prop in Hok as [Hok H255].
  apply andb_prop in Hok as [Hok H0].
  apply andb_prop in Hok as [Hok Herr].
  apply andb_prop in Hok as [Hlo Hhi].
  exists (scale_pixel_f32 p), q.
  rewrite returned_X_data, list_lookup_fmap, Hp.
  split_and!; try done; try by apply Qle_bool_iff.
  - intros ->. by apply bool_decide_eq_true in H0.
  - intros ->. by apply bool_decide_eq_true in H255.
Qed.

End DatasetAdapter.

Lemma expand_dims_last_wf {A} (a : Np.ndarray A) :
  Np.wf a → Np.wf (Np.expand_dims_last a).
Proof.
  unfold Np.wf. simpl. intros ->.
  induction (Np.shape a) as [| n sh IH]; simpl; [done | by rewrite IH].
Qed.

(** ** The two builders *)

Section Builders.

Variable latent_size : Z.

(** The builders have no [raise]: the outcome is always a model, and the
    only event is the construction of that model. *)
Lemma build_generator_returns (mode : string) :
  ∃ m, build_generator latent_size mode = ([EvKerasModel m], inr m).
Proof.
  unfold build_generator.
  destruct (String.eqb mode "1d"); [| destruct (String.eqb mode "2d")];
    eexists; reflexivity.
Qed.

Lemma build_discriminator_returns (mode : string) :
  ∃ m, build_discriminator mode = ([EvKerasModel m], inr m).
Proof.
  unfold build_discriminator.
  destruct (String.eqb mode "1d"); [| destruct (String.eqb mode "2d")];
    eexists; reflexivity.
Qed.

(** Every declared input is used by the output, and nothing else is. *)
Lemma build_generator_closed (mode : string) (m : Model) :
  outcome (build_generator latent_size mode) = inr m →
  tensor_inputs (output m) ≡ₚ input_names m.
Proof.
  unfold build_generator.
  destruct (String.eqb mode "1d"); [| destruct (String.eqb mode "2d")];
    intros [= <-]; simpl; [apply Permutation_swap | apply Permutation_swap | done].
Qed.

Lemma build_discriminator_closed (mode : string) (m : Model) :
  outcome (build_discriminator mode) = inr m →
  tensor_inputs (output m) ≡ₚ input_names m.
Proof.
  unfold build_discriminator.
  destruct (String.eqb mode "1d"); [| destruct (String.eqb mode "2d")];
    intros [= <-]; simpl; [apply Permutation_swap | apply Permutation_swap | done].
Qed.

(** C2. For each of the three modes the generator declares exactly
    {latent}, {latent, image_class_gen}, {latent, ref_image_gen} and the
    discriminator exactly {real_data}, {real_data, image_class_dis},
    {real_data, ref_image_dis}. *)
Theorem declared_inputs_per_mode :
  declared (build_generator latent_size "none") = Some {["latent"]} ∧
  declared (build_generator latent_size "1d")
    = Some {["latent"; "image_class_gen"]} ∧
  declared (build_generator latent_size "2d")
    = Some {["latent"; "ref_image_gen"]} ∧
  declared (build_discriminator "none") = Some {["real_data"]} ∧
  declared (build_discriminator "1d")
    = Some {["real_data"; "image_class_dis"]} ∧
  declared (build_discriminator "2d")
    = Some {["real_data"; "ref_image_dis"]}.
Proof.
  repeat split; unfold declared, input_set; simpl; f_equal; set_solver.
Qed.

(** C10. Called with a mode that is neither the string 1d nor the string
    2d (an unknown word, or 1D in capitals), a builder does not raise: it
    returns a model whose declared inputs are just the primary one. *)
Theorem builders_fall_back_to_no_attention (mode : string) :
  mode ≠ "1d" → mode ≠ "2d" →
  (∃ m, build_generator latent_size mode = ([EvKerasModel m], inr m) ∧
        input_names m = ["latent"] ∧ input_set m = {["latent"]}) ∧
  (∃ m, build_discriminator mode = ([EvKerasModel m], inr m) ∧
        input_names m = ["real_data"] ∧ input_set m = {["real_data"]}).
Proof.
  intros H1 H2.
  apply String.eqb_neq in H1, H2.
  unfold build_generator, build_discriminator. rewrite H1, H2.
  split; eexists; (split; [reflexivity |]); split; try reflexivity;
    unfold input_set; simpl; set_solver.
Qed.

End Builders.

(** ** train_model *)

Section Training.

Variables (args : Args) (X : Np.ndarray scalar) (y : Np.ndarray Z).

(** [train_model] builds the two networks, binds and compiles them, and
    calls [fit] once, with [train_inputs] and [train_outputs]. *)
Lemma train_model_trace :
  ∃ g d,
    build_generator (nb_latent args) (Str.lower (gen_mode args))
      = ([EvKerasModel g], inr g) ∧
    build_discriminator (Str.lower (dis_mode args))
      = ([EvKerasModel d], inr d) ∧
    train_model args X y =
      ([EvKerasModel g; EvKerasModel d;
        EvGandlfModel (mk_GandlfModel g d);
        EvCompile (mk_Adam (lr args) (beta args)) "binary_crossentropy";
        EvFit (train_inputs args X y) train_outputs
              (nb_epoch args) (nb_batch args)],
       inr (mk_GandlfModel g d)).
Proof.
  destruct (build_generator_returns (nb_latent args)
              (Str.lower (gen_mode args))) as [g Hg].
  destruct (build_discriminator_returns (Str.lower (dis_mode args)))
    as [d Hd].
  exists g, d. repeat split; try done.
  unfold train_model. rewrite Hg, Hd. reflexivity.
Qed.

Lemma train_model_fits_once :
  fit_inputs (trace (train_model args X y)) = [train_inputs args X y].
Proof.
  destruct train_model_trace as (g & d & _ & _ & ->). reflexivity.
Qed.

End Training.

Lemma train_inputs_dom args X y :
  dom (train_inputs args X y)
    = bundle_keys (Str.lower (gen_mode args)) (Str.lower (dis_mode args)).
Proof.
  unfold train_inputs, bundle_keys, keys_of_flags.
  destruct (String.eqb (Str.lower (gen_mode args)) "1d");
    [| destruct (String.eqb (Str.lower (gen_mode args)) "2d")];
    (destruct (String.eqb (Str.lower (dis_mode args)) "1d");
     [| destruct (String.eqb (Str.lower (dis_mode args)) "2d")]);
    rewrite ?dom_insert_L, dom_singleton_L; set_solver.
Qed.

(** All sixteen outcomes of the four tests, by computation. *)
Lemma keys_of_flags_spec (g1 g2 d1 d2 : bool) :
  let keys := keys_of_flags g1 g2 d1 d2 in
  "latent" ∈ keys ∧ "real_data" ∈ keys ∧
  ("image_class_gen" ∈ keys ↔ g1 = true) ∧
  ("ref_image_gen" ∈ keys ↔ g1 = false ∧ g2 = true) ∧
  ("image_class_dis" ∈ keys ↔ d1 = true) ∧
  ("ref_image_dis" ∈ keys ↔ d1 = false ∧ d2 = true) ∧
  keys ⊆ all_keys.
Proof.
  intros keys; subst keys.
  destruct g1, g2, d1, d2; repeat apply conj; compute_done.
Qed.

Lemma eqb_2d_not_1d (mode : string) :
  String.eqb mode "1d" = false ∧ String.eqb mode "2d" = true ↔ mode = "2d".
Proof.
  split.
  - intros [_ H]. by apply String.eqb_eq.
  - intros ->. done.
Qed.

Lemma bundle_keys_spec gen dis :
  let keys := bundle_keys gen dis in
  "latent" ∈ keys ∧ "real_data" ∈ keys ∧
  ("image_class_gen" ∈ keys ↔ gen = "1d") ∧
  ("ref_image_gen" ∈ keys ↔ gen = "2d") ∧
  ("image_class_dis" ∈ keys ↔ dis = "1d") ∧
  ("ref_image_dis" ∈ keys ↔ dis = "2d") ∧
  keys ⊆ all_keys.
Proof.
  unfold bundle_keys.
  rewrite <- (eqb_2d_not_1d gen), <- (eqb_2d_not_1d dis),
    <- (String.eqb_eq gen "1d"), <- (String.eqb_eq dis "1d").
  apply keys_of_flags_spec.
Qed.

(** C3. The dictionary [train_model] hands to [fit] always has the keys
    latent and real_data; it has image_class_gen exactly when the
    (lower-cased) generator mode is 1d, ref_image_gen exactly when it is
    2d, image_class_dis exactly when the discriminator mode is 1d and
    ref_image_dis exactly when it is 2d; it has no other key.  Two runs
    with the same two modes have the same keys, whatever else differs.
    With modes 1d and 2d the keys are latent, real_data, image_class_gen
    and ref_image_dis. *)
Theorem bundle_keys_follow_modes (args : Args)
    (X : Np.ndarray scalar) (y : Np.ndarray Z) :
  let gen := Str.lower (gen_mode args) in
  let dis := Str.lower (dis_mode args) in
  ∃ inputs : gmap string source,
    fit_inputs (trace (train_model args X y)) = [inputs] ∧
    "latent" ∈ dom inputs ∧ "real_data" ∈ dom inputs ∧
    ("image_class_gen" ∈ dom inputs ↔ gen = "1d") ∧
    ("ref_image_gen" ∈ dom inputs ↔ gen = "2d") ∧
    ("image_class_dis" ∈ dom inputs ↔ dis = "1d") ∧
    ("ref_image_dis" ∈ dom inputs ↔ dis = "2d") ∧
    dom inputs ⊆ all_keys ∧
    (∀ args' X' y' inputs',
       Str.lower (gen_mode args') = gen →
       Str.lower (dis_mode args') = dis →
       fit_inputs (trace (train_model args' X' y')) = [inputs'] →
       dom inputs' = dom inputs) ∧
    (gen = "1d" → dis = "2d" →
     dom inputs = {["latent"; "real_data"; "image_class_gen";
                    "ref_image_dis"]}).
Proof.
  intros gen dis. exists (train_inputs args X y).
  split; [apply train_model_fits_once |].
  rewrite train_inputs_dom. fold gen dis.
  destruct (bundle_keys_spec gen dis) as (? & ? & ? & ? & ? & ? & ?).
  split_and!; try done.
  - intros args' X' y' inputs' Hg Hd.
    rewrite train_model_fits_once. intros [= <-].
    by rewrite train_inputs_dom, Hg, Hd.
  - intros -> ->. compute_done.
Qed.

(** ** The [__main__] block *)

Lemma mem_true (x : string) (l : list string) : Str.mem x l = true ↔ x ∈ l.
Proof. unfold Str.mem. apply bool_decide_eq_true. Qed.

Lemma mem_false (x : string) (l : list string) : Str.mem x l = false ↔ x ∉ l.
Proof. unfold Str.mem. apply bool_decide_eq_false. Qed.

Section Main.

Variables (env : Env) (args : Args).

(** The four exits of the startup checks, in the order of the script. *)
Lemma main_invalid_gen_mode :
  Str.lower (gen_mode args) ∉ valid_modes →
  main env args
    = ([], inl (ValueError (mode_message "gen_mode" +:+ gen_mode args))).
Proof.
  intros H%mem_false. unfold main. rewrite H. reflexivity.
Qed.

Lemma main_invalid_dis_mode :
  Str.lower (gen_mode args) ∈ valid_modes →
  Str.lower (dis_mode args) ∉ valid_modes →
  main env args
    = ([], inl (ValueError (mode_message "dis_mode" +:+ dis_mode args))).
Proof.
  intros Hg%mem_true Hd%mem_false. unfold main. rewrite Hg, Hd. reflexivity.
Qed.

Lemma main_invalid_latent_type :
  Str.lower (gen_mode args) ∈ valid_modes →
  Str.lower (dis_mode args) ∈ valid_modes →
  Str.lower (latent_type args) ∉ valid_latent_types →
  main env args
    = ([], inl (ValueError (latent_message_head +:+
                            Str.lower (latent_type args) +:+ "."))).
Proof.
  intros Hg%mem_true Hd%mem_true Hl%mem_false.
  unfold main. rewrite Hg, Hd, Hl. reflexivity.
Qed.

Lemma main_missing_matplotlib :
  Str.lower (gen_mode args) ∈ valid_modes →
  Str.lower (dis_mode args) ∈ valid_modes →
  Str.lower (latent_type args) ∈ valid_latent_types →
  plot args ≠ 0 →
  matplotlib_available env = false →
  main env args = ([], inl (ImportError matplotlib_message)).
Proof.
  intros Hg%mem_true Hd%mem_true Hl%mem_true Hp Hm.
  unfold main, truthy. rewrite Hg, Hd, Hl, Hm.
  apply Z.eqb_neq in Hp. rewrite Hp. reflexivity.
Qed.

(** A run that passes the checks does reach [fit]. *)
Lemma main_valid_run_trains :
  Str.lower (gen_mode args) ∈ valid_modes →
  Str.lower (dis_mode args) ∈ valid_modes →
  Str.lower (latent_type args) ∈ valid_latent_types →
  plot args = 0 ∨ matplotlib_available env = true →
  ∃ ev, ev ∈ trace (main env args) ∧ is_training ev = true.
Proof.
  intros Hg%mem_true Hd%mem_true Hl%mem_true Hp.
  set (d := get_mnist_data (mnist_load_data env) (binarize args)).
  destruct (train_model_trace args (X_train d) (y_train d))
    as (g & m & _ & _ & Ht).
  exists (EvFit (train_inputs args (X_train d) (y_train d)) train_outputs
                (nb_epoch args) (nb_batch args)).
  split; [| done].
  assert (∃ tr0, when (truthy (plot args))
                    (if matplotlib_available env then tell EvImportPyplot
                     else raise (ImportError matplotlib_message))
                  = (tr0, inr tt)) as [tr0 Hw].
  { unfold when, truthy.
    destruct Hp as [-> | ->]; [by eexists |].
    destruct (negb _); by eexists. }
  unfold main. rewrite Hg, Hd, Hl, Hw. fold d. rewrite Ht.
  unfold when at 1 2 3. simpl negb. cbv iota.
  unfold ret, tell. rewrite !bind_ok. simpl.
  rewrite !elem_of_app, !elem_of_cons. tauto.
Qed.

(** A block that raises at once leaves the trace of the module level. *)
Lemma script_raises (e : exn) :
  main env args = ([], inl e) → script env args = (startup_trace, inl e).
Proof. intros H. rewrite script_main, H. reflexivity. Qed.

Lemma startup_trace_quiet :
  Forall (λ ev, is_load ev = false ∧ is_construction ev = false ∧
                is_training ev = false) startup_trace.
Proof. repeat constructor. Qed.

(** C1. When the generator mode or the discriminator mode, lower-cased,
    is none of none, 1d, 2d, the run ends in a [ValueError] whose message
    ends with the offending value as it was given (the generator mode
    when that one is wrong, else the discriminator mode).  The trace of
    the run is that of the module level: no network was constructed. *)
Theorem invalid_mode_rejected_before_construction :
  Str.lower (gen_mode args) ∉ valid_modes ∨
  Str.lower (dis_mode args) ∉ valid_modes →
  ∃ flag offending msg,
    ((flag = "gen_mode" ∧ offending = gen_mode args) ∨
     (flag = "dis_mode" ∧ offending = dis_mode args)) ∧
    (Str.lower offending ∉ valid_modes) ∧
    msg = (mode_message flag +:+ offending) ∧
    Str.suffix_of offending msg ∧
    script env args = (startup_trace, inl (ValueError msg)) ∧
    Forall (λ ev, is_construction ev = false) (trace (script env args)).
Proof.
  intros H.
  destruct (decide (Str.lower (gen_mode args) ∈ valid_modes)) as [Hg | Hg].
  - destruct H as [H | H]; [done |].
    exists "dis_mode", (dis_mode args),
      (mode_message "dis_mode" +:+ dis_mode args).
    rewrite (script_raises _ (main_invalid_dis_mode Hg H)).
    split_and!;
      [by right | done | done | by eexists | done | repeat constructor].
  - exists "gen_mode", (gen_mode args),
      (mode_message "gen_mode" +:+ gen_mode args).
    rewrite (script_raises _ (main_invalid_gen_mode Hg)).
    split_and!;
      [by left | done | done | by eexists | done | repeat constructor].
Qed.

(** C7. When the latent type, lower-cased, is neither normal nor uniform,
    the run ends in a [ValueError] and its trace is that of the module
    level: the dataset was not loaded, no model was constructed, [fit]
    was not called.  With both modes valid the message is the latent-type
    one and ends with the lower-cased value and a full stop; with an
    invalid mode it is the message of that earlier check. *)
Theorem invalid_latent_type_rejected_at_startup :
  Str.lower (latent_type args) ∉ valid_latent_types →
  ∃ msg,
    script env args = (startup_trace, inl (ValueError msg)) ∧
    Forall (λ ev, is_load ev = false ∧ is_construction ev = false ∧
                  is_training ev = false) (trace (script env args)) ∧
    (Str.lower (gen_mode args) ∈ valid_modes →
     Str.lower (dis_mode args) ∈ valid_modes →
     msg = latent_message_head +:+ Str.lower (latent_type args) +:+ "." ∧
     Str.contains (Str.lower (latent_type args)) msg) ∧
    (Str.lower (gen_mode args) ∉ valid_modes →
     msg = mode_message "gen_mode" +:+ gen_mode args) ∧
    (Str.lower (gen_mode args) ∈ valid_modes →
     Str.lower (dis_mode args) ∉ valid_modes →
     msg = mode_message "dis_mode" +:+ dis_mode args).
Proof.
  intros Hl.
  destruct (decide (Str.lower (gen_mode args) ∈ valid_modes)) as [Hg | Hg];
    [destruct (decide (Str.lower (dis_mode args) ∈ valid_modes))
       as [Hd | Hd] |].
  - eexists. rewrite (script_raises _ (main_invalid_latent_type Hg Hd Hl)).
    split_and!; [done | apply startup_trace_quiet | | done | done].
    intros _ _. split; [done |]. by eexists _, _.
  - eexists. rewrite (script_raises _ (main_invalid_dis_mode Hg Hd)).
    split_and!; [done | apply startup_trace_quiet | done | done | done].
  - eexists. rewrite (script_raises _ (main_invalid_gen_mode Hg)).
    split_and!; [done | apply startup_trace_quiet | done | done | done].
Qed.

(** C8, as the script has it.  When plotting is requested and Matplotlib
    cannot be imported, the run ends in an exception and its trace is
    that of the module level, so the dataset is not loaded and [fit] is
    never called.  The exception is the [ImportError] when the two modes
    and the latent type pass their checks; when one of them does not, it
    is the [ValueError] of that earlier check. *)
Theorem missing_matplotlib_stops_before_training :
  plot args ≠ 0 →
  matplotlib_available env = false →
  ∃ e,
    script env args = (startup_trace, inl e) ∧
    Forall (λ ev, is_load ev = false ∧ is_construction ev = false ∧
                  is_training ev = false) (trace (script env args)) ∧
    (Str.lower (gen_mode args) ∈ valid_modes →
     Str.lower (dis_mode args) ∈ valid_modes →
     Str.lower (latent_type args) ∈ valid_latent_types →
     e = ImportError matplotlib_message) ∧
    (Str.lower (gen_mode args) ∉ valid_modes ∨
     Str.lower (dis_mode args) ∉ valid_modes ∨
     Str.lower (latent_type args) ∉ valid_latent_types →
     ∃ msg, e = ValueError msg).
Proof.
  intros Hp Hm.
  destruct (decide (Str.lower (gen_mode args) ∈ valid_modes)) as [Hg | Hg];
    [destruct (decide (Str.lower (dis_mode args) ∈ valid_modes))
       as [Hd | Hd];
     [destruct (decide (Str.lower (latent_type args) ∈ valid_latent_types))
        as [Hl | Hl] |] |].
  - exists (ImportError matplotlib_message).
    rewrite (script_raises _ (main_missing_matplotlib Hg Hd Hl Hp Hm)).
    split_and!;
      [done | apply startup_trace_quiet | done | by intros [? | [? | ?]]].
  - eexists. rewrite (script_raises _ (main_invalid_latent_type Hg Hd Hl)).
    split_and!; [done | apply startup_trace_quiet | done | by eexists].
  - eexists. rewrite (script_raises _ (main_invalid_dis_mode Hg Hd)).
    split_and!; [done | apply startup_trace_quiet | done | by eexists].
  - eexists. rewrite (script_raises _ (main_invalid_gen_mode Hg)).
    split_and!; [done | apply startup_trace_quiet | done | by eexists].
Qed.

End Main.

(** ** The theorems at concrete inputs *)

(** The third training pixel of [tiny_mnist] is 10: it becomes 1. *)
Lemma binarize_threshold_is_ten_witness :
  (Np.data (returned_X Train (get_mnist_data tiny_mnist true)) !! 2%nat
     = Some (SInt 1) ↔ 10 ≤ 10) ∧
  (Np.data (returned_X Train (get_mnist_data tiny_mnist true)) !! 2%nat
     = Some (SInt (-1)) ↔ 10 < 10).
Proof.
  apply (binarize_threshold_is_ten tiny_mnist Train 2 10). reflexivity.
Defined.

(** The fourth training pixel of [tiny_mnist] is 255: it becomes 1.0. *)
Lemma scaled_pixel_affine_in_unit_range_witness :
  ∃ (f : F32.float32) (q : Q),
    Np.data (returned_X Train (get_mnist_data tiny_mnist false)) !! 3%nat
      = Some (SFloat32 f) ∧
    f = F32.div (F32.sub (F32.of_Z 255) F32.c127_5) F32.c127_5 ∧
    F32.to_Q f = Some q ∧
    (-1 <= q)%Q ∧ (q <= 1)%Q ∧
    (Qabs (q - affine 255) <= half_ulp)%Q ∧
    (255 = 0 → f = F32.minus_one) ∧
    (255 = 255 → f = F32.one).
Proof.
  apply (scaled_pixel_affine_in_unit_range tiny_mnist Train 3 255);
    [reflexivity | lia].
Defined.

(** The mode 1D, in capitals, reaches the builders only when they are
    called directly: it falls through to the branch without attention. *)
Lemma builders_fall_back_to_no_attention_witness :
  (∃ m, build_generator 100 "1D" = ([EvKerasModel m], inr m) ∧
        input_names m = ["latent"] ∧ input_set m = {["latent"]}) ∧
  (∃ m, build_discriminator "1D" = ([EvKerasModel m], inr m) ∧
        input_names m = ["real_data"] ∧ input_set m = {["real_data"]}).
Proof.
  apply (builders_fall_back_to_no_attention 100 "1D"); discriminate.
Defined.

Lemma invalid_mode_rejected_before_construction_witness :
  ∃ flag offending msg,
    ((flag = "gen_mode" ∧ offending = gen_mode args_unknown_gen_mode) ∨
     (flag = "dis_mode" ∧ offending = dis_mode args_unknown_gen_mode)) ∧
    (Str.lower offending ∉ valid_modes) ∧
    msg = (mode_message flag +:+ offending) ∧
    Str.suffix_of offending msg ∧
    script env_without_matplotlib args_unknown_gen_mode
      = (startup_trace, inl (ValueError msg)) ∧
    Forall (λ ev, is_construction ev = false)
           (trace (script env_without_matplotlib args_unknown_gen_mode)).
Proof.
  apply (invalid_mode_rejected_before_construction
           env_without_matplotlib args_unknown_gen_mode).
  left. apply mem_false. reflexivity.
Defined.

Lemma invalid_latent_type_rejected_at_startup_witness :
  ∃ msg,
    script env_without_matplotlib args_typo_latent_type
      = (startup_trace, inl (ValueError msg)) ∧
    Forall (λ ev, is_load ev = false ∧ is_construction ev = false ∧
                  is_training ev = false)
           (trace (script env_without_matplotlib args_typo_latent_type)) ∧
    (Str.lower (gen_mode args_typo_latent_type) ∈ valid_modes →
     Str.lower (dis_mode args_typo_latent_type) ∈ valid_modes →
     msg = latent_message_head +:+
           Str.lower (latent_type args_typo_latent_type) +:+ "." ∧
     Str.contains (Str.lower (latent_type args_typo_latent_type)) msg) ∧
    (Str.lower (gen_mode args_typo_latent_type) ∉ valid_modes →
     msg = mode_message "gen_mode" +:+ gen_mode args_typo_latent_type) ∧
    (Str.lower (gen_mode args_typo_latent_type) ∈ valid_modes →
     Str.lower (dis_mode args_typo_latent_type) ∉ valid_modes →
     msg = mode_message "dis_mode" +:+ dis_mode args_typo_latent_type).
Proof.
  apply (invalid_latent_type_rejected_at_startup
           env_without_matplotlib args_typo_latent_type).
  apply mem_false. reflexivity.
Defined.

Lemma missing_matplotlib_stops_before_training_witness :
  ∃ e,
    script env_without_matplotlib args_plot = (startup_trace, inl e) ∧
    Forall (λ ev, is_load ev = false ∧ is_construction ev = false ∧
                  is_training ev = false)
           (trace (script env_without_matplotlib args_plot)) ∧
    (Str.lower (gen_mode args_plot) ∈ valid_modes →
     Str.lower (dis_mode args_plot) ∈ valid_modes →
     Str.lower (latent_type args_plot) ∈ valid_latent_types →
     e = ImportError matplotlib_message) ∧
    (Str.lower (gen_mode args_plot) ∉ valid_modes ∨
     Str.lower (dis_mode args_plot) ∉ valid_modes ∨
     Str.lower (latent_type args_plot) ∉ valid_latent_types →
     ∃ msg, e = ValueError msg).
Proof.
  apply (missing_matplotlib_stops_before_training
           env_without_matplotlib args_plot); [discriminate | reflexivity].
Defined.

(** Plotting is requested, Matplotlib is missing and the generator mode
    is 3d: the exception of the run is the [ValueError] of the mode
    check, and no [ImportError] is raised. *)
Lemma missing_matplotlib_masked_by_invalid_mode :
  plot args_plot_unknown_gen_mode ≠ 0 ∧
  matplotlib_available env_without_matplotlib = false ∧
  script env_without_matplotlib args_plot_unknown_gen_mode
    = (startup_trace, inl (ValueError (mode_message "gen_mode" +:+ "3d"))) ∧
  ¬ ∃ tr msg,
      script env_without_matplotlib args_plot_unknown_gen_mode
        = (tr, inl (ImportError msg)).
Proof.
  split_and!; [discriminate | reflexivity | reflexivity |].
  intros (tr & msg & H). vm_compute in H. discriminate H.
Qed.

(** The end-to-end scenarios of the specification. *)
Example scenario_none_none :
  declared (build_generator 10 "none") = Some {["latent"]} ∧
  declared (build_discriminator "none") = Some {["real_data"]} ∧
  dom (train_inputs (with_modes "none" "none" "uniform" 0)
         blank_sample (Np.mk_ndarray [1; 1]%nat [5]))
    = {["latent"; "real_data"]}.
Proof. split_and!; compute_done. Qed.

Example scenario_1d_2d :
  dom (train_inputs (with_modes "1d" "2d" "uniform" 0)
         blank_sample (Np.mk_ndarray [1; 1]%nat [5]))
    = {["latent"; "real_data"; "image_class_gen"; "ref_image_dis"]}.
Proof. compute_done. Qed.

Example scenario_typo_latent_type :
  script env_without_matplotlib args_typo_latent_type
    = (startup_trace, inl (ValueError (latent_message_head +:+ "ormal."))).
Proof. reflexivity. Qed.

(** * Further properties *)

(** ** train_model: what is fed and what is declared *)

Section Feeding.

Variables (args : Args) (X : Np.ndarray scalar) (y : Np.ndarray Z).

Let gen := Str.lower (gen_mode args).
Let dis := Str.lower (dis_mode args).

(** X1. Whatever the two mode strings are, the keys of the dictionary
    handed to [fit] are exactly the inputs declared by the generator
    together with those declared by the discriminator that the same call
    of [train_model] builds and returns. *)
Theorem fit_keys_are_the_declared_inputs :
  ∃ g d inputs,
    outcome (train_model args X y) = inr (mk_GandlfModel g d) ∧
    built (build_generator (nb_latent args) gen) = Some g ∧
    built (build_discriminator dis) = Some d ∧
    fit_inputs (trace (train_model args X y)) = [inputs] ∧
    dom inputs = input_set g ∪ input_set d.
Proof.
  destruct (train_model_trace args X y) as (g & d & Hg & Hd & Ht).
  exists g, d, (train_inputs args X y).
  rewrite Ht. fold gen in Hg. fold dis in Hd.
  split_and!; [done | by unfold built; rewrite Hg
              | by unfold built; rewrite Hd | done |].
  rewrite train_inputs_dom. fold gen dis. unfold bundle_keys.
  revert Hg Hd. unfold build_generator, build_discriminator.
  destruct (String.eqb gen "1d"); [| destruct (String.eqb gen "2d")];
    (destruct (String.eqb dis "1d"); [| destruct (String.eqb dis "2d")]);
    intros [= <-] [= <-]; compute_done.
Qed.

(** X2. What is fed under each key: the lower-cased latent type under
    latent, the training images under real_data and under either
    reference-image key, the training labels under either class key; and
    a key whose mode is not selected is absent. *)
Theorem fit_values_per_key :
  ∃ inputs,
    fit_inputs (trace (train_model args X y)) = [inputs] ∧
    inputs !! "latent" = Some (SrcLatent (Str.lower (latent_type args))) ∧
    inputs !! "real_data" = Some (SrcImages X) ∧
    inputs !! "image_class_gen"
      = (if String.eqb gen "1d" then Some (SrcLabels y) else None) ∧
    inputs !! "ref_image_gen"
      = (if String.eqb gen "1d" then None
         else if String.eqb gen "2d" then Some (SrcImages X) else None) ∧
    inputs !! "image_class_dis"
      = (if String.eqb dis "1d" then Some (SrcLabels y) else None) ∧
    inputs !! "ref_image_dis"
      = (if String.eqb dis "1d" then None
         else if String.eqb dis "2d" then Some (SrcImages X) else None).
Proof.
  exists (train_inputs args X y).
  split; [apply train_model_fits_once |].
  unfold train_inputs. fold gen dis.
  destruct (String.eqb gen "1d"); [| destruct (String.eqb gen "2d")];
    (destruct (String.eqb dis "1d"); [| destruct (String.eqb dis "2d")]);
    split_and!; reflexivity.
Qed.

(** X3. The dictionary has two, three or four entries: latent and
    real_data, and at most one further key for each network.  The class
    key and the reference-image key of one network never occur
    together. *)
Theorem fit_dictionary_size :
  ∃ inputs,
    fit_inputs (trace (train_model args X y)) = [inputs] ∧
    size inputs
      = (2 + (if String.eqb gen "1d" || String.eqb gen "2d" then 1 else 0)
           + (if String.eqb dis "1d" || String.eqb dis "2d" then 1 else 0))%nat
    ∧ (2 ≤ size inputs ≤ 4)%nat ∧
    ¬ ("image_class_gen" ∈ dom inputs ∧ "ref_image_gen" ∈ dom inputs) ∧
    ¬ ("image_class_dis" ∈ dom inputs ∧ "ref_image_dis" ∈ dom inputs).
Proof.
  exists (train_inputs args X y).
  split; [apply train_model_fits_once |].
  rewrite <- size_dom, train_inputs_dom. fold gen dis. unfold bundle_keys.
  destruct (String.eqb gen "1d"); [| destruct (String.eqb gen "2d")];
    (destruct (String.eqb dis "1d"); [| destruct (String.eqb dis "2d")]);
    split_and!; compute_done.
Qed.


End Feeding.

(** ** The builders: the shape of the graphs *)

Section Graphs.

Variables (latent_size : Z) (mode : string).

(** X5. For every mode string both builders return a model whose output
    is computed from exactly the inputs it declares, each declared once:
    no input is left unused and none is used without being declared. *)
Theorem built_graphs_are_closed :
  ∃ g d,
    built (build_generator latent_size mode) = Some g ∧
    built (build_discriminator mode) = Some d ∧
    tensor_inputs (output g) ≡ₚ input_names g ∧
    tensor_inputs (output d) ≡ₚ input_names d ∧
    NoDup (input_names g) ∧ NoDup (input_names d) ∧
    length (input_names g) = length (input g) ∧
    length (input_names d) = length (input d).
Proof.
  unfold built, build_generator, build_discriminator.
  destruct (String.eqb mode "1d"); [| destruct (String.eqb mode "2d")];
    eexists _, _; simpl;
    (split_and!; [done | done | try done; apply Permutation_swap
                 | try done; apply Permutation_swap
                 | compute_done | compute_done | done | done]).
Qed.

(** X6. The mode changes nothing but the wrapper around the recurrent
    layer and the declared inputs: with the attention wrappers taken off,
    the graph of every mode is the graph of the mode none, and the
    primary input comes first in the input list. *)
Theorem mode_only_wraps_the_recurrent_layer :
  ∃ g g0 d d0,
    built (build_generator latent_size mode) = Some g ∧
    built (build_generator latent_size "none") = Some g0 ∧
    built (build_discriminator mode) = Some d ∧
    built (build_discriminator "none") = Some d0 ∧
    strip_tensor (output g) = output g0 ∧
    strip_tensor (output d) = output d0 ∧
    head (input g) = head (input g0) ∧
    head (input d) = head (input d0).
Proof.
  unfold built, build_generator, build_discriminator.
  destruct (String.eqb mode "1d"); [| destruct (String.eqb mode "2d")];
    eexists _, _, _, _; simpl; split_and!; reflexivity.
Qed.

(** X7. For every pair of modes the generator ends in a reshape to
    28 x 28 x 1, which is the declared shape of the discriminator's
    real_data input and of both reference-image inputs; the recurrent
    layer of the generator returns the whole sequence and that of the
    discriminator only its last state. *)
Theorem generator_output_fits_discriminator_input (dis_mode : string) :
  ∃ g d body,
    built (build_generator latent_size mode) = Some g ∧
    built (build_discriminator dis_mode) = Some d ∧
    output g = Call (Reshape [28; 28; 1] (Some "gen_image")) body ∧
    declared_shape d "real_data" = Some [28; 28; 1] ∧
    (mode = "2d" → declared_shape g "ref_image_gen" = Some [28; 28; 1]) ∧
    (dis_mode = "2d" →
     declared_shape d "ref_image_dis" = Some [28; 28; 1]) ∧
    (∃ outer inner,
       strip_tensor (output g)
         = Call outer (Call (TimeDistributed (Dense 28 "tanh"))
                         (Call (LSTM 128 true) inner))) ∧
    (∃ inner,
       strip_tensor (output d)
         = Call (Dense 1 "sigmoid") (Call (LSTM 128 false) inner)).
Proof.
  unfold built, build_generator, build_discriminator.
  destruct (String.eqb_spec mode "1d") as [-> | G1];
    [| destruct (String.eqb_spec mode "2d") as [-> | G2]];
    (destruct (String.eqb_spec dis_mode "1d") as [-> | D1];
     [| destruct (String.eqb_spec dis_mode "2d") as [-> | D2]]);
    eexists _, _, _; simpl;
    (split_and!; [done | done | done | done | done | done
                 | by eexists _, _ | by eexists]).
Qed.

End Graphs.

(** ** get_mnist_data and the builders together *)

Lemma returned_shapes (loaded : mnist_dataset) (b : bool) :
  Np.shape (X_train (get_mnist_data loaded b))
    = Np.shape (mnist_X_train loaded) ++ [1%nat] ∧
  Np.shape (y_train (get_mnist_data loaded b))
    = Np.shape (mnist_y_train loaded) ++ [1%nat].
Proof. by destruct b. Qed.

(** X8. When the loaded training images have shape n x 28 x 28 and the
    labels shape n, every array handed to [fit] has, sample by sample,
    the shape its key is declared with in the network that takes it:
    28 x 28 x 1 for real_data and the reference images, 1 for the class
    labels.  This holds for both [binarize] settings and all modes. *)
Theorem fed_arrays_have_the_declared_shapes
    (loaded : mnist_dataset) (n : nat) (args : Args) :
  Np.shape (mnist_X_train loaded) = [n; 28; 28]%nat →
  Np.shape (mnist_y_train loaded) = [n] →
  ∃ g d inputs,
    outcome (train_model args
               (X_train (get_mnist_data loaded (binarize args)))
               (y_train (get_mnist_data loaded (binarize args))))
      = inr (mk_GandlfModel g d) ∧
    fit_inputs (trace (train_model args
               (X_train (get_mnist_data loaded (binarize args)))
               (y_train (get_mnist_data loaded (binarize args)))))
      = [inputs] ∧
    ∀ name src,
      inputs !! name = Some src → name ≠ "latent" →
      ∃ sh, (declared_shape g name = Some sh ∨
             declared_shape d name = Some sh) ∧
            sample_shape src = Some sh.
Proof.
  intros HX Hy.
  destruct (returned_shapes loaded (binarize args)) as [HsX Hsy].
  rewrite HX in HsX. rewrite Hy in Hsy.
  set (X := X_train (get_mnist_data loaded (binarize args))) in *.
  set (y := y_train (get_mnist_data loaded (binarize args))) in *.
  destruct (train_model_trace args X y) as (g & d & Hg & Hd & Ht).
  exists g, d, (train_inputs args X y). rewrite Ht.
  split_and!; [done | done |].
  assert (sample_shape (SrcImages X) = Some [28; 28; 1]) as HiX
    by (simpl; by rewrite HsX).
  assert (sample_shape (SrcLabels y) = Some [1]) as Hiy
    by (simpl; by rewrite Hsy).
  clearbody X y. clear Ht HsX Hsy HX Hy.
  intros name src Hin Hname. revert Hg Hd Hin.
  unfold train_inputs, build_generator, build_discriminator.
  destruct (String.eqb (Str.lower (gen_mode args)) "1d");
    [| destruct (String.eqb (Str.lower (gen_mode args)) "2d")];
    (destruct (String.eqb (Str.lower (dis_mode args)) "1d");
     [| destruct (String.eqb (Str.lower (dis_mode args)) "2d")]);
    intros [= <-] [= <-];
    rewrite ?lookup_insert_Some, lookup_singleton_Some;
    intros Hin;
    repeat match goal with
           | H : _ ∨ _ |- _ => destruct H
           | H : _ ∧ _ |- _ => destruct H
           end; simplify_eq;
    first [ exists [28; 28; 1]; split; [vm_compute; auto | assumption]
          | exists [1]; split; [vm_compute; auto | assumption] ].
Qed.

(** ** get_mnist_data: the scaled branch as a map on 0..255 *)

Lemma pixel_range_enumerated (p : Z) :
  0 ≤ p ≤ 255 → In p (Z.of_nat <$> seq 0 256).
Proof.
  intros Hp. apply list_elem_of_In, list_elem_of_fmap.
  exists (Z.to_nat p). split; [lia |].
  apply list_elem_of_In, in_seq. lia.
Qed.

Lemma scaled_lt_adjacent :
  forallb (λ p, scaled_lt p (p + 1)) (Z.of_nat <$> seq 0 255) = true.
Proof. vm_compute. reflexivity. Qed.

Lemma scaled_lt_step (p : Z) : 0 ≤ p < 255 → scaled_lt p (p + 1) = true.
Proof.
  intros Hp. pose proof scaled_lt_adjacent as Hall.
  rewrite forallb_forall in Hall. apply Hall.
  apply list_elem_of_In, list_elem_of_fmap.
  exists (Z.to_nat p). split; [lia |].
  apply list_elem_of_In, in_seq. lia.
Qed.

Lemma scaled_lt_spec (p1 p2 : Z) :
  scaled_lt p1 p2 = true ↔
  ∃ q1 q2, F32.to_Q (scale_pixel_f32 p1) = Some q1 ∧
           F32.to_Q (scale_pixel_f32 p2) = Some q2 ∧ (q1 < q2)%Q.
Proof.
  unfold scaled_lt.
  destruct (F32.to_Q (scale_pixel_f32 p1)) as [q1|];
    [destruct (F32.to_Q (scale_pixel_f32 p2)) as [q2|] |].
  - split.
    + intros H. exists q1, q2. split_and!; try done.
      apply Qnot_le_lt. intros Hle%Qle_bool_iff. by rewrite Hle in H.
    + intros (? & ? & [= <-] & [= <-] & Hlt).
      apply negb_true_iff, not_true_is_false.
      intros Hle%Qle_bool_iff. by apply Qle_not_lt in Hle.
  - split; [done | by intros (? & ? & _ & ? & _)].
  - split; [done | by intros (? & ? & ? & _)].
Qed.

Lemma scaled_lt_trans (p1 p2 p3 : Z) :
  scaled_lt p1 p2 = true → scaled_lt p2 p3 = true → scaled_lt p1 p3 = true.
Proof.
  rewrite !scaled_lt_spec.
  intros (q1 & q2 & E1 & E2 & H12) (q2' & q3 & E2' & E3 & H23).
  rewrite E2 in E2'. injection E2' as <-.
  exists q1, q3. split_and!; try done. by eapply Qlt_trans.
Qed.

Lemma scaled_lt_range (p1 : Z) (n : nat) :
  0 ≤ p1 → p1 + Z.of_nat (S n) ≤ 255 →
  scaled_lt p1 (p1 + Z.of_nat (S n)) = true.
Proof.
  intros H0. induction n as [| n IH]; intros H255.
  - apply scaled_lt_step. lia.
  - apply (scaled_lt_trans _ (p1 + Z.of_nat (S n))); [apply IH; lia |].
    replace (p1 + Z.of_nat (S (S n))) with (p1 + Z.of_nat (S n) + 1) by lia.
    apply scaled_lt_step. lia.
Qed.

Lemma scaled_mirror_all :
  forallb scaled_mirror_ok (Z.of_nat <$> seq 0 256) = true.
Proof. vm_compute. reflexivity. Qed.

(** X9. With [binarize=False] the map on pixel values is strictly
    increasing on 0..255: a brighter pixel always gets a strictly larger
    float, so no two intensities are merged by the rounding. *)
Theorem scaling_is_strictly_increasing (p1 p2 : Z) :
  0 ≤ p1 → p1 < p2 → p2 ≤ 255 →
  ∃ q1 q2,
    F32.to_Q (scale_pixel_f32 p1) = Some q1 ∧
    F32.to_Q (scale_pixel_f32 p2) = Some q2 ∧
    (q1 < q2)%Q ∧
    scale_pixel p1 ≠ scale_pixel p2.
Proof.
  intros H0 Hlt H255.
  pose proof (scaled_lt_range p1 (Z.to_nat (p2 - p1 - 1)) H0) as Hall.
  replace (p1 + Z.of_nat (S (Z.to_nat (p2 - p1 - 1)))) with p2 in Hall
    by lia.
  apply scaled_lt_spec in Hall as (q1 & q2 & E1 & E2 & Hq); [| done].
  exists q1, q2. split_and!; try done.
  unfold scale_pixel. intros [= Heq]. rewrite Heq, E2 in E1.
  injection E1 as ->. by apply Qlt_irrefl in Hq.
Qed.

(** X10. With [binarize=False] the map is odd about the middle of the
    range: the pixel [255 - p] gets exactly the negated float of [p].
    No pixel is mapped to zero; the result is negative up to 127 and
    positive from 128 on. *)
Theorem scaling_is_odd_and_never_zero (p : Z) :
  0 ≤ p ≤ 255 →
  scale_pixel_f32 (255 - p) = SFopp (scale_pixel_f32 p) ∧
  ∃ q, F32.to_Q (scale_pixel_f32 p) = Some q ∧
       ¬ (q == 0)%Q ∧
       ((q < 0)%Q ↔ p ≤ 127) ∧ ((0 < q)%Q ↔ 128 ≤ p).
Proof.
  intros Hp.
  pose proof scaled_mirror_all as Hall.
  rewrite forallb_forall in Hall.
  specialize (Hall p (pixel_range_enumerated p Hp)).
  unfold scaled_mirror_ok in Hall.
  apply andb_prop in Hall as [Hodd Hq].
  apply bool_decide_eq_true in Hodd. split; [done |].
  destruct (F32.to_Q (scale_pixel_f32 p)) as [q|]; [| done].
  apply andb_prop in Hq as [Hq Hpos].
  apply andb_prop in Hq as [Hnz Hneg].
  exists q. split; [done |].
  assert (¬ (q == 0)%Q) as Hne.
  { intros He%Qeq_bool_iff. by rewrite He in Hnz. }
  split; [done |].
  assert ((q <= 0)%Q → p ≤ 127) as Hn.
  { intros Hle%Qle_bool_iff. rewrite Hle in Hneg. simpl in Hneg. lia. }
  assert ((0 <= q)%Q → 128 ≤ p) as Hps.
  { intros Hle%Qle_bool_iff. rewrite Hle in Hpos. simpl in Hpos. lia. }
  split; split.
  - intros Hlt. apply Hn. by apply Qlt_le_weak.
  - intros Hle. destruct (Qlt_le_dec q 0) as [| Hge]; [done |].
    specialize (Hps Hge). lia.
  - intros Hlt. apply Hps. by apply Qlt_le_weak.
  - intros Hge. destruct (Qlt_le_dec 0 q) as [| Hle]; [done |].
    specialize (Hn Hle). lia.
Qed.

(** X11. [get_mnist_data] keeps arrays well formed: when each loaded
    array holds as many elements as its shape says, so does each
    returned array, for both [binarize] settings. *)
Theorem returned_arrays_are_well_formed (loaded : mnist_dataset) (b : bool) :
  Np.wf (mnist_X_train loaded) → Np.wf (mnist_y_train loaded) →
  Np.wf (mnist_X_test loaded) → Np.wf (mnist_y_test loaded) →
  Np.wf (X_train (get_mnist_data loaded b)) ∧
  Np.wf (y_train (get_mnist_data loaded b)) ∧
  Np.wf (X_test (get_mnist_data loaded b)) ∧
  Np.wf (y_test (get_mnist_data loaded b)).
Proof.
  intros H1 H2 H3 H4.
  destruct b; simpl; split_and!; apply expand_dims_last_wf;
    try done; unfold Np.wf, Np.map; simpl; by rewrite length_fmap.
Qed.

(** ** The [__main__] block: complete runs *)

Lemma for_each_trace {A} (f : A → list event) (body : A → M unit)
    (xs : list A) :
  (∀ x, body x = (f x, inr tt)) → for_each xs body = (xs ≫= f, inr tt).
Proof.
  intros Hbody. induction xs as [| x xs IH]; [done |].
  simpl. rewrite Hbody, bind_ok, IH. reflexivity.
Qed.

Lemma plot_samples_trace (env : Env) (args : Args) (y : Np.ndarray Z) :
  plot_samples env args y = (plot_events env args y, inr tt).
Proof.
  unfold plot_samples, plot_events.
  destruct (String.eqb (Str.lower (gen_mode args)) "none").
  - rewrite (for_each_trace (λ sample, [EvPlotSample sample])) by done.
    unfold tell. by rewrite !bind_ok.
  - rewrite (for_each_trace
               (λ '(sample, digit), [EvPlotSample sample; EvPrintDigit digit]))
      by (by intros [sample digit]).
    unfold tell. by rewrite !bind_ok.
Qed.

Lemma main_completes (env : Env) (args : Args) :
  checks_pass env args → main env args = (run_events env args, inr tt).
Proof.
  intros (Hg%mem_true & Hd%mem_true & Hl%mem_true & Hp).
  unfold main, run_events. rewrite Hg, Hd, Hl.
  set (d := get_mnist_data (mnist_load_data env) (binarize args)).
  destruct (train_model_trace args (X_train d) (y_train d))
    as (g & m & _ & _ & Ht).
  rewrite Ht. unfold when at 1 2 3. simpl negb. cbv iota.
  unfold when, truthy.
  destruct Hp as [Hp | Hp]; rewrite Hp.
  - change (negb (0 =? 0)) with false. cbv iota.
    unfold ret, tell. rewrite !bind_ok. reflexivity.
  - destruct (negb (plot args =? 0)).
    + rewrite plot_samples_trace. unfold tell. rewrite !bind_ok.
      reflexivity.
    + unfold ret, tell. rewrite !bind_ok. reflexivity.
Qed.

Lemma main_fails (env : Env) (args : Args) :
  ¬ checks_pass env args →
  ∃ e, main env args = ([], inl e) ∧
       ((∃ msg, e = ValueError msg) ∨ e = ImportError matplotlib_message).
Proof.
  intros Hno.
  destruct (decide (Str.lower (gen_mode args) ∈ valid_modes)) as [Hg | Hg];
    [destruct (decide (Str.lower (dis_mode args) ∈ valid_modes))
       as [Hd | Hd];
     [destruct (decide (Str.lower (latent_type args) ∈ valid_latent_types))
        as [Hl | Hl] |] |].
  - destruct (decide (plot args = 0)) as [Hp | Hp];
      [destruct Hno; by split_and!; [| | | left] |].
    destruct (matplotlib_available env) eqn:Hm;
      [destruct Hno; unfold checks_pass; rewrite Hm;
       by split_and!; [| | | right] |].
    eexists. split; [by apply main_missing_matplotlib | by right].
  - eexists. split; [by apply main_invalid_latent_type | left; by eexists].
  - eexists. split; [by apply main_invalid_dis_mode | left; by eexists].
  - eexists. split; [by apply main_invalid_gen_mode | left; by eexists].
Qed.

#[global] Instance checks_pass_dec env args : Decision (checks_pass env args).
Proof. unfold checks_pass. apply _. Defined.

Lemma count_app (kind : event → bool) (a b : list event) :
  count kind (a ++ b) = (count kind a + count kind b)%nat.
Proof. unfold count. by rewrite filter_app, length_app. Qed.


Lemma count_cons_false (kind : event → bool) (ev : event) (tr : list event) :
  kind ev = false → count kind (ev :: tr) = count kind tr.
Proof.
  intros Hev. unfold count. rewrite filter_cons_False; [done |].
  by rewrite Hev.
Qed.



Section Runs.

Variables (env : Env) (args : Args).



End Runs.

Lemma training_split_only (loaded : mnist_dataset) (b : bool) :
  X_train (get_mnist_data loaded b)
    = Np.expand_dims_last
        (Np.map (if b then binarize_pixel else scale_pixel)
                (mnist_X_train loaded)) ∧
  y_train (get_mnist_data loaded b)
    = Np.expand_dims_last (mnist_y_train loaded).
Proof. by destruct b. Qed.

(** X14. The test split is loaded and normalised but never used: two
    environments that agree on the training images and labels, on
    Matplotlib and on what [sample] returns give the same run, whatever
    their test images and labels are. *)
Theorem test_split_is_never_used (env env' : Env) (args : Args) :
  matplotlib_available env = matplotlib_available env' →
  gandlf_sample env = gandlf_sample env' →
  mnist_X_train (mnist_load_data env) = mnist_X_train (mnist_load_data env') →
  mnist_y_train (mnist_load_data env) = mnist_y_train (mnist_load_data env') →
  script env args = script env' args.
Proof.
  intros Hm Hs HX Hy.
  unfold script, main, plot_samples.
  destruct (training_split_only (mnist_load_data env) (binarize args))
    as [-> ->].
  destruct (training_split_only (mnist_load_data env') (binarize args))
    as [-> ->].
  by rewrite Hm, Hs, HX, Hy.
Qed.

(** X15. Without [--plot] (the value 0) no run does anything of the
    plotting part: pyplot is not imported, [sample] is not called,
    nothing is drawn or shown and no digit is printed. *)
Theorem no_plotting_unless_asked (env : Env) (args : Args) :
  plot args = 0 →
  Forall (λ ev, is_plotting ev = false) (trace (script env args)).
Proof.
  intros Hp. rewrite script_main. simpl.
  destruct (decide (checks_pass env args)) as [Hok | Hno].
  - rewrite (main_completes env args Hok). unfold run_events, truthy.
    rewrite Hp. simpl.
    destruct (train_model_trace args
                (X_train (get_mnist_data (mnist_load_data env)
                                         (binarize args)))
                (y_train (get_mnist_data (mnist_load_data env)
                                         (binarize args))))
      as (g & d & _ & _ & ->).
    repeat constructor.
  - destruct (main_fails env args Hno) as (e & -> & _). repeat constructor.
Qed.

(** ** The plotting part *)

Lemma figures_of_samples (l : list (Np.ndarray scalar)) :
  sample_calls (l ≫= λ s, [EvPlotSample s]) = [] ∧
  printed_digits (l ≫= λ s, [EvPlotSample s]) = [] ∧
  count is_figure (l ≫= λ s, [EvPlotSample s]) = length l.
Proof.
  induction l as [| s l (IH1 & IH2 & IH3)]; [done |].
  split_and!; [done | done |].
  unfold count in *. simpl. by rewrite <- IH3.
Qed.

Lemma figures_of_pairs (l : list (Np.ndarray scalar * list Z)) :
  sample_calls (l ≫= λ '(s, dg), [EvPlotSample s; EvPrintDigit dg]) = [] ∧
  printed_digits (l ≫= λ '(s, dg), [EvPlotSample s; EvPrintDigit dg])
    = l.*2 ∧
  count is_figure (l ≫= λ '(s, dg), [EvPlotSample s; EvPrintDigit dg])
    = length l.
Proof.
  induction l as [| [s dg] l (IH1 & IH2 & IH3)]; [done |].
  split_and!; [done | |].
  - simpl. f_equal. exact IH2.
  - unfold count in *. simpl. by rewrite <- IH3.
Qed.

Lemma snd_zip_take {A B} (xs : list A) (ys : list B) :
  (zip xs ys).*2 = take (length xs) ys.
Proof.
  revert ys. induction xs as [| x xs IH]; intros [| y ys]; try done.
  simpl. by rewrite IH.
Qed.

Lemma chunks_one {A} (l : list A) :
  Np.chunks (length l) 1 l = (λ x, [x]) <$> l.
Proof.
  induction l as [| x l IH]; [done |].
  simpl. rewrite drop_0. by rewrite IH.
Qed.

Lemma around_samples (sample_args : list sample_arg) (num : option Z)
    (body : list event) :
  sample_calls ((EvSample sample_args num :: body) ++ [EvShow])
    = (sample_args, num) :: sample_calls body ∧
  printed_digits ((EvSample sample_args num :: body) ++ [EvShow])
    = printed_digits body ∧
  count is_figure ((EvSample sample_args num :: body) ++ [EvShow])
    = count is_figure body.
Proof.
  unfold sample_calls, printed_digits.
  rewrite count_app, !omap_app. simpl. rewrite !app_nil_r.
  rewrite count_cons_false by done.
  split_and!; [done | done |]. unfold count at 2. simpl. lia.
Qed.

(** What a run that plots leaves in its trace, seen through the three
    observations. *)
Lemma plotting_run_observed (env : Env) (args : Args) :
  checks_pass env args → plot args ≠ 0 →
  let y := y_train (get_mnist_data (mnist_load_data env) (binarize args)) in
  sample_calls (trace (script env args)) = sample_calls (plot_events env args y) ∧
  printed_digits (trace (script env args))
    = printed_digits (plot_events env args y) ∧
  count is_figure (trace (script env args))
    = count is_figure (plot_events env args y).
Proof.
  intros Hok Hp y.
  rewrite script_main, (main_completes env args Hok).
  unfold run_events, truthy. apply Z.eqb_neq in Hp. rewrite Hp. simpl negb.
  cbv iota. fold y.
  destruct (train_model_trace args
              (X_train (get_mnist_data (mnist_load_data env)
                                       (binarize args))) y)
    as (g & d & _ & _ & ->).
  unfold trace. simpl fst. simpl app.
  rewrite !count_cons_false by done.
  unfold sample_calls, printed_digits. simpl omap.
  rewrite count_app, !omap_app. simpl.
  rewrite !app_nil_r. split_and!; [done | done |].
  unfold count at 2. simpl. lia.
Qed.

Section Plotting.

Variables (env : Env) (args : Args).

Let y := y_train (get_mnist_data (mnist_load_data env) (binarize args)).
Let no_attention := String.eqb (Str.lower (gen_mode args)) "none".

(** X16. A run that plots calls [sample] once, after training.  With the
    generator mode none it passes the latent type as it was typed and the
    number of plots; with any other mode, 1d and 2d alike, it passes the
    latent type and the first labels [y_train[:plot]], and no number.
    One figure is drawn per returned sample, in the second case at most
    one per label, each followed by the print of its digit. *)
Theorem sample_call_of_a_plotting_run :
  checks_pass env args → plot args ≠ 0 →
  ∃ sample_args num samples,
    (sample_args, num)
      = (if no_attention
         then ([SampleLatent (latent_type args)], Some (plot args))
         else ([SampleLatent (latent_type args);
                SampleLabels (Np.head_rows (plot args) y)], None)) ∧
    samples = gandlf_sample env sample_args num ∧
    sample_calls (trace (script env args)) = [(sample_args, num)] ∧
    count is_figure (trace (script env args))
      = (if no_attention then length samples
         else min (length samples)
                  (length (Np.rows (Np.head_rows (plot args) y)))) ∧
    length (printed_digits (trace (script env args)))
      = (if no_attention then 0%nat
         else count is_figure (trace (script env args))).
Proof.
  intros Hok Hp.
  destruct (plotting_run_observed env args Hok Hp) as (-> & -> & ->).
  fold y. unfold plot_events. fold no_attention.
  destruct no_attention.
  - eexists _, _, _. split; [reflexivity |]. split; [reflexivity |].
    destruct (around_samples [SampleLatent (latent_type args)]
                (Some (plot args))
                (gandlf_sample env [SampleLatent (latent_type args)]
                   (Some (plot args)) ≫= λ s, [EvPlotSample s]))
      as (-> & -> & ->).
    destruct (figures_of_samples
                (gandlf_sample env [SampleLatent (latent_type args)]
                               (Some (plot args)))) as (-> & -> & ->).
    done.
  - eexists _, _, _. split; [reflexivity |]. split; [reflexivity |].
    destruct (around_samples
                [SampleLatent (latent_type args);
                 SampleLabels (Np.head_rows (plot args) y)] None
                (zip (gandlf_sample env
                        [SampleLatent (latent_type args);
                         SampleLabels (Np.head_rows (plot args) y)] None)
                     (Np.rows (Np.head_rows (plot args) y))
                   ≫= λ '(s, dg), [EvPlotSample s; EvPrintDigit dg]))
      as (-> & -> & ->).
    destruct (figures_of_pairs
                (zip (gandlf_sample env
                        [SampleLatent (latent_type args);
                         SampleLabels (Np.head_rows (plot args) y)] None)
                     (Np.rows (Np.head_rows (plot args) y))))
      as (-> & -> & ->).
    rewrite length_fmap, length_zip. done.
Qed.

End Plotting.

Lemma leading_rows_of_labels (labels : Np.ndarray Z) (n : nat) (k : Z) :
  Np.shape labels = [n] → length (Np.data labels) = n → 0 < k →
  Np.data (Np.head_rows k (Np.expand_dims_last labels))
    = take (Z.to_nat k) (Np.data labels) ∧
  Np.rows (Np.head_rows k (Np.expand_dims_last labels))
    = (λ l, [l]) <$> take (Z.to_nat k) (Np.data labels).
Proof.
  intros Hsh Hlen Hk.
  unfold Np.head_rows, Np.rows, Np.expand_dims_last. rewrite Hsh. simpl.
  unfold Np.slice_stop. destruct (Z.ltb_spec k 0) as [| _]; [lia |].
  unfold Np.row_size. simpl. rewrite Nat.mul_1_r.
  assert (take (Z.to_nat (k `min` Z.of_nat n)) (Np.data labels)
          = take (Z.to_nat k) (Np.data labels)) as Htake.
  { destruct (Z.le_gt_cases k (Z.of_nat n)).
    - by rewrite Z.min_l.
    - rewrite Z.min_r by lia. rewrite Nat2Z.id.
      rewrite !take_ge; [done | lia | lia]. }
  rewrite Htake. split; [done |].
  rewrite <- chunks_one. f_equal.
  rewrite <- Htake, length_take. lia.
Qed.

(** X17. In a run that plots with a generator mode other than none and a
    positive number of plots, when the loaded training labels are a
    well-formed vector, [sample] is handed the first [plot] labels (all
    of them when there are fewer) and the digits printed are these
    labels in order, one per returned sample. *)
Theorem printed_digits_are_the_leading_labels
    (env : Env) (args : Args) (n : nat) :
  checks_pass env args → 0 < plot args →
  Str.lower (gen_mode args) ≠ "none" →
  Np.shape (mnist_y_train (mnist_load_data env)) = [n] →
  length (Np.data (mnist_y_train (mnist_load_data env))) = n →
  ∃ labels samples,
    sample_calls (trace (script env args))
      = [([SampleLatent (latent_type args); SampleLabels labels], None)] ∧
    Np.shape labels = [Z.to_nat (plot args `min` Z.of_nat n); 1%nat] ∧
    Np.data labels
      = take (Z.to_nat (plot args))
             (Np.data (mnist_y_train (mnist_load_data env))) ∧
    samples
      = gandlf_sample env [SampleLatent (latent_type args);
                           SampleLabels labels] None ∧
    printed_digits (trace (script env args))
      = (λ l, [l]) <$>
          take (length samples)
               (take (Z.to_nat (plot args))
                     (Np.data (mnist_y_train (mnist_load_data env)))).
Proof.
  intros Hok Hk Hgen Hsh Hlen.
  assert (plot args ≠ 0) as Hp by lia.
  destruct (plotting_run_observed env args Hok Hp) as (-> & -> & _).
  destruct (training_split_only (mnist_load_data env) (binarize args))
    as [_ ->].
  destruct (leading_rows_of_labels _ n (plot args) Hsh Hlen Hk)
    as [Hdata Hrows].
  unfold plot_events.
  apply String.eqb_neq in Hgen. rewrite Hgen.
  set (labels := Np.head_rows (plot args)
                   (Np.expand_dims_last
                      (mnist_y_train (mnist_load_data env)))) in *.
  set (samples := gandlf_sample env
                    [SampleLatent (latent_type args); SampleLabels labels]
                    None).
  exists labels, samples.
  destruct (around_samples
              [SampleLatent (latent_type args); SampleLabels labels] None
              (zip samples (Np.rows labels)
                 ≫= λ '(s, dg), [EvPlotSample s; EvPrintDigit dg]))
    as (-> & -> & _).
  destruct (figures_of_pairs (zip samples (Np.rows labels)))
    as (-> & -> & _).
  rewrite snd_zip_take, Hrows, <- fmap_take.
  split_and!; try done.
  subst labels. unfold Np.head_rows, Np.expand_dims_last. rewrite Hsh. simpl.
  unfold Np.slice_stop.
  by destruct (Z.ltb_spec (plot args) 0) as [| _]; [lia |].
Qed.

(** ** Letter case of the modes *)

Lemma lower_ascii_idempotent (c : ascii) :
  Str.lower_ascii (Str.lower_ascii c) = Str.lower_ascii c.
Proof. by destruct c as [[] [] [] [] [] [] [] []]. Qed.

Lemma lower_idempotent (s : string) : Str.lower (Str.lower s) = Str.lower s.
Proof.
  induction s as [| c s IH]; [done |].
  simpl. by rewrite lower_ascii_idempotent, IH.
Qed.

(** X18. In a run that passes the checks the letter case of the two
    modes does not matter: the run is the same as with both modes written
    in lower case. *)
Theorem mode_case_is_irrelevant (env : Env) (args : Args) :
  checks_pass env args →
  checks_pass env (set_modes (Str.lower (gen_mode args))
                             (Str.lower (dis_mode args)) args) ∧
  script env (set_modes (Str.lower (gen_mode args))
                        (Str.lower (dis_mode args)) args)
    = script env args.
Proof.
  intros Hok.
  assert (checks_pass env (set_modes (Str.lower (gen_mode args))
                                     (Str.lower (dis_mode args)) args))
    as Hok'.
  { destruct Hok as (? & ? & ? & ?). unfold checks_pass. simpl.
    by rewrite !lower_idempotent. }
  split; [done |].
  rewrite !script_main, (main_completes _ _ Hok), (main_completes _ _ Hok').
  unfold run_events, train_model, train_inputs, plot_events. simpl.
  by rewrite !lower_idempotent.
Qed.

(** ** The further properties at concrete inputs *)

Lemma fed_arrays_have_the_declared_shapes_witness :
  ∃ g d inputs,
    outcome (train_model args_plot_2d
               (X_train (get_mnist_data mnist_28 (binarize args_plot_2d)))
               (y_train (get_mnist_data mnist_28 (binarize args_plot_2d))))
      = inr (mk_GandlfModel g d) ∧
    fit_inputs (trace (train_model args_plot_2d
               (X_train (get_mnist_data mnist_28 (binarize args_plot_2d)))
               (y_train (get_mnist_data mnist_28 (binarize args_plot_2d)))))
      = [inputs] ∧
    ∀ name src,
      inputs !! name = Some src → name ≠ "latent" →
      ∃ sh, (declared_shape g name = Some sh ∨
             declared_shape d name = Some sh) ∧
            sample_shape src = Some sh.
Proof.
  apply (fed_arrays_have_the_declared_shapes mnist_28 2 args_plot_2d);
    reflexivity.
Defined.

Lemma scaling_is_strictly_increasing_witness :
  ∃ q1 q2,
    F32.to_Q (scale_pixel_f32 9) = Some q1 ∧
    F32.to_Q (scale_pixel_f32 10) = Some q2 ∧
    (q1 < q2)%Q ∧
    scale_pixel 9 ≠ scale_pixel 10.
Proof. apply (scaling_is_strictly_increasing 9 10); lia. Defined.

Lemma scaling_is_odd_and_never_zero_witness :
  scale_pixel_f32 (255 - 127) = SFopp (scale_pixel_f32 127) ∧
  ∃ q, F32.to_Q (scale_pixel_f32 127) = Some q ∧
       ¬ (q == 0)%Q ∧
       ((q < 0)%Q ↔ 127 ≤ 127) ∧ ((0 < q)%Q ↔ 128 ≤ 127).
Proof. apply (scaling_is_odd_and_never_zero 127). lia. Defined.

Lemma returned_arrays_are_well_formed_witness :
  Np.wf (X_train (get_mnist_data tiny_mnist true)) ∧
  Np.wf (y_train (get_mnist_data tiny_mnist true)) ∧
  Np.wf (X_test (get_mnist_data tiny_mnist true)) ∧
  Np.wf (y_test (get_mnist_data tiny_mnist true)).
Proof.
  apply (returned_arrays_are_well_formed tiny_mnist true); reflexivity.
Defined.


Lemma test_split_is_never_used_witness :
  script env_without_matplotlib args_capitals
    = script env_other_test_split args_capitals.
Proof.
  apply (test_split_is_never_used env_without_matplotlib
           env_other_test_split args_capitals); reflexivity.
Defined.

Lemma no_plotting_unless_asked_witness :
  Forall (λ ev, is_plotting ev = false)
         (trace (script env_with_matplotlib args_capitals)).
Proof.
  apply (no_plotting_unless_asked env_with_matplotlib args_capitals).
  reflexivity.
Defined.

Lemma sample_call_of_a_plotting_run_witness :
  ∃ sample_args num samples,
    (sample_args, num)
      = (if String.eqb (Str.lower (gen_mode args_plot_2d)) "none"
         then ([SampleLatent (latent_type args_plot_2d)],
               Some (plot args_plot_2d))
         else ([SampleLatent (latent_type args_plot_2d);
                SampleLabels
                  (Np.head_rows (plot args_plot_2d)
                     (y_train (get_mnist_data
                                 (mnist_load_data env_with_matplotlib)
                                 (binarize args_plot_2d))))], None)) ∧
    samples = gandlf_sample env_with_matplotlib sample_args num ∧
    sample_calls (trace (script env_with_matplotlib args_plot_2d))
      = [(sample_args, num)] ∧
    count is_figure (trace (script env_with_matplotlib args_plot_2d))
      = (if String.eqb (Str.lower (gen_mode args_plot_2d)) "none"
         then length samples
         else min (length samples)
                  (length (Np.rows
                     (Np.head_rows (plot args_plot_2d)
                        (y_train (get_mnist_data
                                    (mnist_load_data env_with_matplotlib)
                                    (binarize args_plot_2d))))))) ∧
    length (printed_digits (trace (script env_with_matplotlib args_plot_2d)))
      = (if String.eqb (Str.lower (gen_mode args_plot_2d)) "none" then 0%nat
         else count is_figure
                (trace (script env_with_matplotlib args_plot_2d))).
Proof.
  apply (sample_call_of_a_plotting_run env_with_matplotlib args_plot_2d);
    [compute_done | discriminate].
Defined.

Lemma printed_digits_are_the_leading_labels_witness :
  ∃ labels samples,
    sample_calls (trace (script env_with_matplotlib args_plot_2d))
      = [([SampleLatent (latent_type args_plot_2d); SampleLabels labels],
          None)] ∧
    Np.shape labels
      = [Z.to_nat (plot args_plot_2d `min` Z.of_nat 2); 1%nat] ∧
    Np.data labels
      = take (Z.to_nat (plot args_plot_2d))
             (Np.data (mnist_y_train (mnist_load_data env_with_matplotlib)))
    ∧
    samples
      = gandlf_sample env_with_matplotlib
          [SampleLatent (latent_type args_plot_2d); SampleLabels labels] None
    ∧
    printed_digits (trace (script env_with_matplotlib args_plot_2d))
      = (λ l, [l]) <$>
          take (length samples)
               (take (Z.to_nat (plot args_plot_2d))
                     (Np.data (mnist_y_train
                                 (mnist_load_data env_with_matplotlib)))).
Proof.
  apply (printed_digits_are_the_leading_labels
           env_with_matplotlib args_plot_2d 2);
    [compute_done | reflexivity | discriminate | reflexivity | reflexivity].
Defined.

Lemma mode_case_is_irrelevant_witness :
  checks_pass env_without_matplotlib
    (set_modes (Str.lower (gen_mode args_capitals))
               (Str.lower (dis_mode args_capitals)) args_capitals) ∧
  script env_without_matplotlib
    (set_modes (Str.lower (gen_mode args_capitals))
               (Str.lower (dis_mode args_capitals)) args_capitals)
    = script env_without_matplotlib args_capitals.
Proof.
  apply (mode_case_is_irrelevant env_without_matplotlib args_capitals).
  compute_done.
Defined.

(** The digit printed by the run of the last two lemmas is the first
    label, 5. *)
Example plot_2d_prints_first_label :
  printed_digits (trace (script env_with_matplotlib args_plot_2d)) = [[5]] ∧
  count is_figure (trace (script env_with_matplotlib args_plot_2d)) = 1%nat.
Proof. split; reflexivity. Qed.
